(** * Pip-Matrix-Resolver: the command runner and log sink of [venv_manager.py]

    A shallow embedding of [src/venv_manager.py].  The module is a Tk
    program whose callbacks spawn child processes and write to one text
    widget.  The embedding keeps that shape:

    - Python [str] values are [string]s (code points below 256); the bytes
      a child writes are [string]s too, and become text through the codec
      of the host;
    - [dict] objects live in a small store and are reached through
      references, so that [os.environ.copy()] and a plain alias differ;
    - the interface (text widget, notebook tab, message boxes, entry field),
      the inherited console and the list of spawned children form one
      [State] record, threaded through a state-and-exception monad;
    - the library calls the module makes are primitives of the model:
      [os.path.join], [subprocess.run] (with the decoding of captured
      output, as each flavour of host does it), the widget methods, and the
      wrapper through which Tk runs the command of a button;
    - the host platform and the behaviour of child processes are the two
      parameters of the development. *)

From Stdlib Require Import Ascii String ZArith Lia.
From stdpp Require Import base option list strings gmap.

Open Scope Z_scope.
Open Scope stdpp_scope.

(** ** Python strings *)

Module Str.

(** Truth value of a [str]: only the empty string is false. *)
Definition truthy (s : string) : bool :=
  match s with
  | EmptyString => false
  | String _ _ => true
  end.

(** [str.isspace] on one character, for code points below 256: the ASCII
    controls TAB, LF, VT, FF, CR, the separators FS, GS, RS, US, the
    space, NEL (0x85) and the no-break space (0xA0). *)
Definition isspace (c : ascii) : bool :=
  let n := N_of_ascii c in
  ((9 <=? n) && (n <=? 13) || (28 <=? n) && (n <=? 32)
   || (n =? 133) || (n =? 160))%N.

(** [s.lstrip()] *)
Fixpoint lstrip (s : string) : string :=
  match s with
  | EmptyString => EmptyString
  | String c r => if isspace c then lstrip r else s
  end.

(** [s.rstrip()] *)
Fixpoint rstrip (s : string) : string :=
  match s with
  | EmptyString => EmptyString
  | String c r =>
      match rstrip r with
      | EmptyString => if isspace c then EmptyString else String c EmptyString
      | r' => String c r'
      end
  end.

(** [s.strip()] *)
Definition strip (s : string) : string := rstrip (lstrip s).

(** A string is blank when it is empty or made of whitespace only. *)
Fixpoint blank (s : string) : bool :=
  match s with
  | EmptyString => true
  | String c r => isspace c && blank r
  end.

(** [s.startswith(c)] and [s.endswith(c)] for a set of one-character
    alternatives. *)
Definition starts_with_any (cs : list ascii) (s : string) : bool :=
  match s with
  | EmptyString => false
  | String c _ => bool_decide (c ∈ cs)
  end.

Fixpoint ends_with_any (cs : list ascii) (s : string) : bool :=
  match s with
  | EmptyString => false
  | String c EmptyString => bool_decide (c ∈ cs)
  | String _ r => ends_with_any cs r
  end.

(** The carriage return, Python's ["\r"]. *)
Definition is_cr (c : ascii) : bool := (N_of_ascii c =? 13)%N.

Definition is_lf (c : ascii) : bool := (N_of_ascii c =? 10)%N.

(** [s.replace("\r\n", "\n")] *)
Fixpoint replace_crlf (s : string) : string :=
  match s with
  | EmptyString => EmptyString
  | String c r =>
      match r with
      | String c' r' =>
          if is_cr c && is_lf c' then String c' (replace_crlf r')
          else String c (replace_crlf r)
      | EmptyString => String c EmptyString
      end
  end.

(** [s.replace("\r", "\n")] *)
Fixpoint replace_cr (s : string) : string :=
  match s with
  | EmptyString => EmptyString
  | String c r =>
      String (if is_cr c then "010"%char else c) (replace_cr r)
  end.

End Str.

(** The line feed, Python's ["\n"]. *)
Definition LF : string := String "010"%char EmptyString.

(** ** Exceptions *)

(** Exceptions that reach the module. [UnicodeDecodeError] carries the
    bytes that could not be decoded. *)
Inductive PyExn :=
| KeyError (key : string)
| FileNotFoundError (filename : string)
| PermissionError (filename : string)
| ValueError (msg : string)
| UnicodeDecodeError (object : string)
| TypeError (msg : string).

(** Who prints an exception that nobody handles on [sys.stderr]: Tk, for an
    exception that leaves a callback, or [threading], for one that ends a
    thread. *)
Inductive Reporter := tk_callback | reader_thread.

(** ** The host platform *)

(** [os.name]: which flavour of [os.path] the interpreter loaded. *)
Inductive OsName := posix | nt.

Record Platform := {
  system : string;      (* platform.system()  *)
  release : string;     (* platform.release() *)
  version : string;     (* platform.version() *)
  os_name : OsName;     (* os.name            *)
  executable : string;  (* sys.executable     *)
  (* bytes.decode(locale encoding, "strict"): the text, or None where
     Python raises UnicodeDecodeError *)
  locale_decode : string → option string;
  (* the header and traceback a reporter prints for an exception *)
  format_report : Reporter → PyExn → string
}.

Module OsPath.

(** [os.sep] *)
Definition sep (n : OsName) : string :=
  match n with posix => "/" | nt => "\" end.

(** The characters [os.path.join] accepts as separators: [ntpath] also
    takes the forward slash. *)
Definition seps (n : OsName) : list ascii :=
  match n with
  | posix => ["/"%char]
  | nt => ["\"%char; "/"%char]
  end.

(** [os.pathsep] *)
Definition pathsep (n : OsName) : string :=
  match n with posix => ":" | nt => ";" end.

(** The loop of [posixpath.join] and, for components without a drive, of
    [ntpath.join]: an absolute component restarts the path, otherwise the
    component is added after a separator unless one is already there. *)
Fixpoint join_from (n : OsName) (path : string) (ps : list string) : string :=
  match ps with
  | [] => path
  | b :: ps' =>
      if Str.starts_with_any (seps n) b then join_from n b ps'
      else if negb (Str.truthy path) || Str.ends_with_any (seps n) path
           then join_from n (path +:+ b) ps'
           else join_from n (path +:+ sep n +:+ b) ps'
  end.

(** [os.path.join(a, *ps)] *)
Definition join (n : OsName) (a : string) (ps : list string) : string :=
  join_from n a ps.

End OsPath.

(** ** Settings *)

Definition PYTHON_VERSION : string := "3.11".
Definition PIP_TOOLS_VERSION : string := "7.4.1".
Definition REQUIREMENTS_FILE : string := "requirements.in".
Definition VENV_NAME : string := "venv_running".

(** ** Objects of the running program *)

(** A Python [dict] from [str] to [str]. *)
Abbreviation dict := (gmap string string).

(** References to [dict] objects: [os.environ] itself, or an object the
    program allocated. Two names bound to one reference are aliases. *)
Inductive Ref := environ_ref | local_ref (n : nat).

(** The first argument of [subprocess.run]: an argument list or a string. *)
Inductive Command :=
| Argv (args : list string)
| CommandLine (line : string).

(** One call of [subprocess.run], with the keyword arguments the module
    uses; [env = None] lets the child inherit the host environment. *)
Record Invocation := {
  args : Command;
  shell : bool;
  capture_output : bool;
  text : bool;
  env : option dict
}.

(** What the operating system answers to a spawn request: the child ran to
    completion with an exit code and the bytes it wrote on its two streams,
    or it could not be started and [subprocess.run] raises. The bytes are
    raw: turning them into text is the work of [subprocess.run]. *)
Inductive Outcome :=
| Completed (returncode : Z) (out err : string)
| NotStarted (e : PyExn).

(** The children of a host: the outcome of a request, given the requests
    made before it. *)
Definition Children := list Invocation → Invocation → Outcome.

(** [subprocess.CompletedProcess]. A stream attribute is [None] when the
    stream was not captured, or could not be read. *)
Record CompletedProcess := {
  returncode : Z;
  stdout : option string;
  stderr : option string
}.

(** The [ScrolledText] widget: its text (without the final newline Tk
    keeps for itself) and the index last brought into view by [see]. *)
Record ScrolledText := {
  content : string;
  seen : nat
}.

(** [tk.END] resolved against a widget. *)
Definition END (w : ScrolledText) : nat := String.length (content w).

Inductive Tab := menu_tab | terminal_tab.

Record State := {
  terminal_output : ScrolledText;       (* the log widget                 *)
  selected : Tab;                       (* tab shown by tab_control       *)
  shell_entry : string;                 (* text of the command entry      *)
  dialogs : list (string * string);     (* message boxes shown: title, message *)
  console : list string;                (* output of uncaptured children  *)
  os_environ : dict;                    (* os.environ                     *)
  locals : list dict;                   (* dicts allocated by the program *)
  spawned : list Invocation             (* spawn requests, oldest first   *)
}.

Definition with_terminal_output (w : ScrolledText) (s : State) : State :=
  {| terminal_output := w; selected := selected s;
     shell_entry := shell_entry s; dialogs := dialogs s;
     console := console s; os_environ := os_environ s;
     locals := locals s; spawned := spawned s |}.

Definition with_selected (t : Tab) (s : State) : State :=
  {| terminal_output := terminal_output s; selected := t;
     shell_entry := shell_entry s; dialogs := dialogs s;
     console := console s; os_environ := os_environ s;
     locals := locals s; spawned := spawned s |}.

Definition with_dialogs (d : list (string * string)) (s : State) : State :=
  {| terminal_output := terminal_output s; selected := selected s;
     shell_entry := shell_entry s; dialogs := d;
     console := console s; os_environ := os_environ s;
     locals := locals s; spawned := spawned s |}.

Definition with_console (c : list string) (s : State) : State :=
  {| terminal_output := terminal_output s; selected := selected s;
     shell_entry := shell_entry s; dialogs := dialogs s;
     console := c; os_environ := os_environ s;
     locals := locals s; spawned := spawned s |}.

Definition with_os_environ (e : dict) (s : State) : State :=
  {| terminal_output := terminal_output s; selected := selected s;
     shell_entry := shell_entry s; dialogs := dialogs s;
     console := console s; os_environ := e;
     locals := locals s; spawned := spawned s |}.

Definition with_locals (l : list dict) (s : State) : State :=
  {| terminal_output := terminal_output s; selected := selected s;
     shell_entry := shell_entry s; dialogs := dialogs s;
     console := console s; os_environ := os_environ s;
     locals := l; spawned := spawned s |}.

Definition with_spawned (l : list Invocation) (s : State) : State :=
  {| terminal_output := terminal_output s; selected := selected s;
     shell_entry := shell_entry s; dialogs := dialogs s;
     console := console s; os_environ := os_environ s;
     locals := locals s; spawned := l |}.

(** ** State and exceptions *)

Inductive Result (A : Type) :=
| Ok (a : A)
| Raise (e : PyExn).
Arguments Ok {A} a.
Arguments Raise {A} e.

Definition M (A : Type) : Type := State → Result A * State.

Definition ret {A} (a : A) : M A := λ s, (Ok a, s).

Definition raise {A} (e : PyExn) : M A := λ s, (Raise e, s).

Definition bind {A B} (c : M A) (k : A → M B) : M B :=
  λ s, match c s with
       | (Ok a, s') => k a s'
       | (Raise e, s') => (Raise e, s')
       end.

Definition gets {A} (f : State → A) : M A := λ s, (Ok (f s), s).

Definition modify (f : State → State) : M unit := λ s, (Ok tt, f s).

Notation "'let*' x := c1 'in' c2" := (bind c1 (λ x, c2))
  (at level 10, x name, c1 at level 100, c2 at level 200).
Notation "c1 >> c2" := (bind c1 (λ _, c2))
  (at level 100, c2 at level 200, right associativity).

(** *** Dictionaries behind references *)

Definition read_dict (r : Ref) (s : State) : dict :=
  match r with
  | environ_ref => os_environ s
  | local_ref n => default ∅ (locals s !! n)
  end.

Definition write_dict (r : Ref) (d : dict) (s : State) : State :=
  match r with
  | environ_ref => with_os_environ d s
  | local_ref n => with_locals (<[n := d]> (locals s)) s
  end.

(** [d.copy()]: a new object with the same items. *)
Definition dict_copy (r : Ref) : M Ref :=
  λ s, (Ok (local_ref (length (locals s))),
        with_locals (locals s ++ [read_dict r s]) s).

(** [d[k]] *)
Definition dict_getitem (r : Ref) (k : string) : M string :=
  λ s, match read_dict r s !! k with
       | Some v => (Ok v, s)
       | None => (Raise (KeyError k), s)
       end.

(** [d[k] = v]: updates the object in place, for every alias of it. *)
Definition dict_setitem (r : Ref) (k v : string) : M unit :=
  modify (λ s, write_dict r (<[k := v]> (read_dict r s)) s).

(** *** Widgets *)

(** [terminal_output.insert(tk.END, chars)] *)
Definition text_insert_end (chars : string) : M unit :=
  modify (λ s,
    let w := terminal_output s in
    with_terminal_output {| content := content w +:+ chars; seen := seen w |} s).

(** [terminal_output.see(tk.END)] *)
Definition text_see_end : M unit :=
  modify (λ s,
    let w := terminal_output s in
    with_terminal_output {| content := content w; seen := END w |} s).

(** [messagebox.showinfo(title, message)]. The box gets its message
    option only [if message:], so [None] and the empty string both show a
    box without text. *)
Definition messagebox_showinfo (title : string) (message : option string)
    : M unit :=
  modify (λ s,
    with_dialogs (dialogs s ++ [(title, default "" message)]) s).

(** [tab_control.select(tab)] *)
Definition tab_control_select (t : Tab) : M unit :=
  modify (with_selected t).

(** [shell_entry.get()] *)
Definition shell_entry_get : M string := gets shell_entry.

(** ** The module's functions *)

Section VenvManager.

(** The host: its platform, and how its child processes behave. *)
Variable pf : Platform.
Variable os : Children.

(** [platform.system()] *)
Definition platform_system : M string := ret (system pf).

(** [os.path.join] and [os.pathsep] of the host. *)
Definition os_path_join (a : string) (ps : list string) : string :=
  OsPath.join (os_name pf) a ps.

Definition os_pathsep : string := OsPath.pathsep (os_name pf).

(** *** [subprocess.run] *)

(** [Popen._translate_newlines(data, encoding, errors)] with the locale
    encoding and strict errors: decode, then
    [replace("\r\n", "\n").replace("\r", "\n")]. [None] stands for the
    [UnicodeDecodeError] of the decoding. *)
Definition translate_newlines (data : string) : option string :=
  (λ t, Str.replace_cr (Str.replace_crlf t)) <$> locale_decode pf data.

(** Printing on the [sys.stderr] of the host. *)
Definition print_stderr (t : string) : M unit :=
  modify (λ s, with_console (console s ++ [t]) s).

(** [Popen._readerthread] of the Windows implementation: a thread reads
    one pipe to its end through a text wrapper with universal newlines,
    which gives the same text as [translate_newlines]. When the bytes
    cannot be decoded the thread dies, [threading] reports the exception on
    [sys.stderr], and the buffer of the stream stays empty: the stream
    reads as [None]. *)
Definition reader_thread_read (data : string) : M (option string) :=
  match translate_newlines data with
  | Some t => ret (Some t)
  | None =>
      print_stderr (format_report pf reader_thread (UnicodeDecodeError data))
      >> ret None
  end.

(** [Popen.communicate] in text mode, once the child has exited. The POSIX
    implementation decodes both streams itself, standard output first, and
    a failure raises; the Windows implementation collects what its two
    reader threads have read (the order of their reports is theirs; the
    standard output comes first here). *)
Definition communicate_text (out err : string)
    : M (option string * option string) :=
  match os_name pf with
  | posix =>
      match translate_newlines out with
      | None => raise (UnicodeDecodeError out)
      | Some o =>
          match translate_newlines err with
          | None => raise (UnicodeDecodeError err)
          | Some e => ret (Some o, Some e)
          end
      end
  | nt =>
      let* o := reader_thread_read out in
      let* e := reader_thread_read err in
      ret (o, e)
  end.

(** [subprocess.run(args, shell=.., capture_output=.., text=.., env=..)]:
    the request is recorded, then the child runs to completion or the
    call raises. Captured output is turned into text when [text] is set;
    output that is not captured goes to the console the child inherits. *)
Definition subprocess_run (inv : Invocation) : M CompletedProcess :=
  λ s,
    let s' := with_spawned (spawned s ++ [inv]) s in
    match os (spawned s) inv with
    | NotStarted e => (Raise e, s')
    | Completed rc out err =>
        if capture_output inv then
          if text inv then
            (let* streams := communicate_text out err in
             ret {| returncode := rc; stdout := fst streams;
                    stderr := snd streams |}) s'
          else (Ok {| returncode := rc; stdout := Some out;
                      stderr := Some err |}, s')
        else (Ok {| returncode := rc; stdout := None; stderr := None |},
              with_console (console s' ++ [out; err]) s')
    end.

(** [subprocess.run(argv)] *)
Definition run_argv (argv : list string) : M CompletedProcess :=
  subprocess_run {| args := Argv argv; shell := false;
                    capture_output := false; text := false; env := None |}.

(** [subprocess.run(argv, capture_output=True, text=True)] *)
Definition run_argv_captured (argv : list string) : M CompletedProcess :=
  subprocess_run {| args := Argv argv; shell := false;
                    capture_output := true; text := true; env := None |}.

(** *** The module's own functions *)

(** [log_to_terminal(text)] *)
Definition log_to_terminal (text : string) : M unit :=
  text_insert_end (text +:+ LF) >>
  text_see_end.

(** [log_to_terminal(v)] for an attribute [v] that may be [None]: the
    concatenation [text + "\n"] raises [TypeError] on [None], before
    anything is inserted. *)
Definition log_attribute (v : option string) : M unit :=
  match v with
  | Some t => log_to_terminal t
  | None =>
      raise (TypeError
               "unsupported operand type(s) for +: 'NoneType' and 'str'")
  end.

(** Truth value of an attribute: [None] and the empty string are false. *)
Definition attribute_truthy (v : option string) : bool :=
  match v with
  | Some t => Str.truthy t
  | None => false
  end.

(** [get_os_info()] *)
Definition get_os_info : M (string * string * string) :=
  ret (system pf, release pf, version pf).

(** [install_os_dependencies()] *)
Definition install_os_dependencies : M unit :=
  let* info := get_os_info in
  let '(os_name, release, version) := info in
  log_to_terminal ("Detected OS: " +:+ os_name +:+ " " +:+ release
                   +:+ " " +:+ version) >>
  if String.eqb os_name "Linux" then
    run_argv ["sudo"; "apt-get"; "update"] >>
    run_argv ["sudo"; "apt-get"; "install"; "-y";
              "python" +:+ PYTHON_VERSION; "python3-venv"] >>
    ret tt
  else if String.eqb os_name "Darwin" then
    run_argv ["brew"; "install"; "python@" +:+ PYTHON_VERSION] >>
    ret tt
  else if String.eqb os_name "Windows" then
    log_to_terminal "Ensure Python is installed manually on Windows."
  else
    log_to_terminal "Unsupported OS.".

(** [create_venv()] *)
Definition create_venv : M string :=
  run_argv [executable pf; "-m"; "venv"; VENV_NAME] >>
  let* sys := platform_system in
  let activate_script :=
    os_path_join VENV_NAME
      [if String.eqb sys "Windows" then "Scripts" else "bin"; "activate"] in
  ret activate_script.

(** [install_pip_tools()] *)
Definition install_pip_tools : M unit :=
  let* sys := platform_system in
  let pip_path :=
    os_path_join VENV_NAME
      [if negb (String.eqb sys "Windows") then "bin" else "Scripts"; "pip"] in
  run_argv [pip_path; "install"; "pip-tools==" +:+ PIP_TOOLS_VERSION] >>
  ret tt.

(** [compile_requirements()] *)
Definition compile_requirements : M unit :=
  let* sys := platform_system in
  let pip_compile_path :=
    os_path_join VENV_NAME
      [if negb (String.eqb sys "Windows") then "bin" else "Scripts";
       "pip-compile"] in
  let* result := run_argv_captured [pip_compile_path; REQUIREMENTS_FILE] in
  log_attribute (stdout result) >>
  if attribute_truthy (stderr result) then log_attribute (stderr result)
  else ret tt.

(** [sync_requirements()] *)
Definition sync_requirements : M unit :=
  let* sys := platform_system in
  let pip_sync_path :=
    os_path_join VENV_NAME
      [if negb (String.eqb sys "Windows") then "bin" else "Scripts";
       "pip-sync"] in
  let* result := run_argv_captured [pip_sync_path] in
  log_attribute (stdout result) >>
  if attribute_truthy (stderr result) then log_attribute (stderr result)
  else ret tt.

(** [get_installed_packages()] *)
Definition get_installed_packages : M (option string) :=
  let* sys := platform_system in
  let pip_path :=
    os_path_join VENV_NAME
      [if negb (String.eqb sys "Windows") then "bin" else "Scripts"; "pip"] in
  let* result := run_argv_captured [pip_path; "list"] in
  ret (stdout result).

(** *** Actions bound to the buttons *)

(** [on_create_venv()] *)
Definition on_create_venv : M unit :=
  log_to_terminal "Checking OS dependencies..." >>
  install_os_dependencies >>
  log_to_terminal "Creating virtual environment..." >>
  let* activate_script := create_venv in
  log_to_terminal ("Virtual environment created at " +:+ activate_script) >>
  log_to_terminal "Installing pip-tools..." >>
  install_pip_tools >>
  log_to_terminal "pip-tools installed." >>
  tab_control_select terminal_tab.

(** [on_status()] *)
Definition on_status : M unit :=
  let* packages := get_installed_packages in
  messagebox_showinfo "Installed Packages" packages.

(** [on_compile()] *)
Definition on_compile : M unit :=
  log_to_terminal "Running pip-compile..." >>
  compile_requirements.

(** [on_sync()] *)
Definition on_sync : M unit :=
  log_to_terminal "Running pip-sync..." >>
  sync_requirements.

(** [run_shell_command()] *)
Definition run_shell_command : M unit :=
  let* cmd := shell_entry_get in
  if negb (Str.truthy (Str.strip cmd)) then
    log_to_terminal "No command entered."
  else
    log_to_terminal ("Executing in venv: " +:+ cmd) >>
    let* env := dict_copy environ_ref in
    let* sys := platform_system in
    let venv_bin :=
      os_path_join VENV_NAME
        [if String.eqb sys "Windows" then "Scripts" else "bin"] in
    let* path := dict_getitem env "PATH" in
    dict_setitem env "PATH" (venv_bin +:+ os_pathsep +:+ path) >>
    let* env_items := gets (read_dict env) in
    let* result :=
      subprocess_run {| args := CommandLine cmd; shell := true;
                        capture_output := true; text := true;
                        env := Some env_items |} in
    (if attribute_truthy (stdout result) then log_attribute (stdout result)
     else ret tt) >>
    if attribute_truthy (stderr result) then log_attribute (stderr result)
    else ret tt.

(** *** The buttons *)

(** [Misc.report_callback_exception]: Tk prints a header and the
    traceback on [sys.stderr]. *)
Definition report_callback_exception (e : PyExn) : M unit :=
  print_stderr (format_report pf tk_callback e).

(** [CallWrapper.__call__]: how Tk runs the [command] of a widget. An
    exception that leaves the command is reported and the call returns to
    the main loop. (The wrapper lets [SystemExit] through; nothing here
    raises it.) *)
Definition call_wrapper (command : M unit) : M unit :=
  λ s, match command s with
       | (Ok u, s') => (Ok u, s')
       | (Raise e, s') => report_callback_exception e s'
       end.

(** Pressing the buttons: each [ttk.Button] runs its [command] through
    the wrapper. *)
Definition create_btn_invoke : M unit := call_wrapper on_create_venv.
Definition status_btn_invoke : M unit := call_wrapper on_status.
Definition compile_btn_invoke : M unit := call_wrapper on_compile.
Definition sync_btn_invoke : M unit := call_wrapper on_sync.
Definition shell_btn_invoke : M unit := call_wrapper run_shell_command.

End VenvManager.

(** ** Concrete hosts and states, used to run the model *)

Module Sample.

(** The strict ASCII codec: text is its own encoding, and any byte from
    128 up cannot be decoded. *)
Fixpoint all_ascii (s : string) : bool :=
  match s with
  | EmptyString => true
  | String c r => (N_of_ascii c <? 128)%N && all_ascii r
  end.

Definition ascii_decode (data : string) : option string :=
  if all_ascii data then Some data else None.

(** Reports, cut down to their header and the start of the traceback. *)
Definition short_report (r : Reporter) (e : PyExn) : string :=
  match r with
  | tk_callback => "Exception in Tkinter callback"
  | reader_thread => "Exception in thread Thread-1 (_readerthread):"
  end +:+ LF +:+ "Traceback (most recent call last):" +:+ LF.

(** Hosts whose locale encoding is ASCII. *)
Definition linux : Platform :=
  {| system := "Linux"; release := "6.1.0"; version := "#1 SMP";
     os_name := posix; executable := "/usr/bin/python3";
     locale_decode := ascii_decode; format_report := short_report |}.

Definition windows : Platform :=
  {| system := "Windows"; release := "10"; version := "10.0.19045";
     os_name := nt; executable := "C:\Python311\python.exe";
     locale_decode := ascii_decode; format_report := short_report |}.

(** One byte that is not ASCII. *)
Definition byte_ff : string := String "255"%char EmptyString.

(** Every child runs, succeeds, and writes a byte that cannot be decoded
    on its standard output. *)
Definition garbled : Children :=
  λ _ _, Completed 0 byte_ff "".

(** Every child runs, exits with code 1 and writes a line ending in CR LF
    on its standard error. *)
Definition dos_failing : Children :=
  λ _ _, Completed 1 "" ("boom" +:+ String "013"%char LF).

(** Every child runs and prints one line on each stream. *)
Definition chatty : Children :=
  λ _ inv, Completed 0 ("out" +:+ LF) ("warn" +:+ LF).

(** Every child runs, fails with exit code 1 and prints nothing on its
    standard output. *)
Definition failing : Children :=
  λ _ _, Completed 1 "" ("boom" +:+ LF).

(** Every child runs and succeeds silently on its error stream. *)
Definition clean : Children :=
  λ _ _, Completed 0 "ok" "".

(** A host on which the environment was never created: programs under
    the environment directory do not exist, a shell reports an unknown
    command, everything else runs silently. *)
Definition no_venv : Children :=
  λ _ inv,
    match args inv with
    | Argv (p :: _) =>
        if String.prefix VENV_NAME p then NotStarted (FileNotFoundError p)
        else Completed 0 "" ""
    | Argv [] => NotStarted (ValueError "empty argument list")
    | CommandLine line =>
        Completed 127 "" ("/bin/sh: 1: " +:+ line +:+ ": not found" +:+ LF)
    end.

(** The same children as [failing], had they exited with code 0. *)
Definition failing_unnoticed : Children :=
  λ _ _, Completed 0 "" ("boom" +:+ LF).

(** The program just started, with a search path and a command typed. *)
Definition start_with (path cmd : string) : State :=
  {| terminal_output := {| content := ""; seen := 0 |};
     selected := menu_tab;
     shell_entry := cmd;
     dialogs := [];
     console := [];
     os_environ := {[ "PATH" := path; "HOME" := "/root" ]};
     locals := [];
     spawned := [] |}.

Definition start (cmd : string) : State := start_with "/usr/bin" cmd.

Definition windows_start : State := start_with "C:\Windows\system32" "pip list".

End Sample.

(** ** Vocabulary of the specification *)

(** The platform's choice of binary subdirectory: one name on Windows,
    another elsewhere. *)
Definition bin_subdir (pf : Platform) : string :=
  if String.eqb (system pf) "Windows" then "Scripts" else "bin".

(** The binary directory of the environment, and a program inside it. *)
Definition venv_bin (pf : Platform) : string :=
  os_path_join pf VENV_NAME [bin_subdir pf].

Definition venv_program (pf : Platform) (name : string) : string :=
  os_path_join pf VENV_NAME [bin_subdir pf; name].

(** The three shapes of request the module makes. *)
Definition plain_request (argv : list string) : Invocation :=
  {| args := Argv argv; shell := false; capture_output := false;
     text := false; env := None |}.

Definition captured_request (argv : list string) : Invocation :=
  {| args := Argv argv; shell := false; capture_output := true;
     text := true; env := None |}.

Definition shell_request (cmd : string) (e : dict) : Invocation :=
  {| args := CommandLine cmd; shell := true; capture_output := true;
     text := true; env := Some e |}.

(** The Log Buffer: the text of the log widget. *)
Definition buffer (s : State) : string := content (terminal_output s).

(** The scroll position of the log widget is at the end of its text. *)
Definition scrolled_to_end (s : State) : Prop :=
  seen (terminal_output s) = END (terminal_output s).

(** What the user can see besides the Log Buffer: the selected tab, the
    message boxes, the console. *)
Definition other_surfaces (s : State) : Tab * list (string * string) * list string :=
  (selected s, dialogs s, console s).

(** Everything but the log widget. *)
Definition beside_log (s : State) :=
  (selected s, shell_entry s, dialogs s, console s, os_environ s,
   locals s, spawned s).

(** How an operation ends. *)
Definition returns {A} (c : M A) (s : State) : Prop := ∃ a, fst (c s) = Ok a.

Definition raises {A} (c : M A) (s : State) (e : PyExn) : Prop :=
  fst (c s) = Raise e.

(** The state an operation leaves. *)
Definition after {A} (c : M A) (s : State) : State := snd (c s).

(** [buf] contains [a] and, somewhere after it, [b]. *)
Definition contains_in_order (buf a b : string) : Prop :=
  ∃ pre mid post, buf = pre +:+ a +:+ mid +:+ b +:+ post.

(** A captured stream as it reaches the log when empty streams are
    skipped: the text and a line feed, or nothing. *)
Definition line_if_any (t : string) : string :=
  if Str.truthy t then t +:+ LF else "".

(** The requests of the operations that target the environment. *)
Definition compile_request (pf : Platform) : Invocation :=
  captured_request [venv_program pf "pip-compile"; REQUIREMENTS_FILE].

Definition sync_request (pf : Platform) : Invocation :=
  captured_request [venv_program pf "pip-sync"].

Definition list_request (pf : Platform) : Invocation :=
  captured_request [venv_program pf "pip"; "list"].

Definition pip_tools_request (pf : Platform) : Invocation :=
  plain_request [venv_program pf "pip"; "install";
                 "pip-tools==" +:+ PIP_TOOLS_VERSION].

Definition venv_request (pf : Platform) : Invocation :=
  plain_request [executable pf; "-m"; "venv"; VENV_NAME].

(** The environment handed to the child of a shell command, when the
    host's [PATH] is [p]: the binary directory, the path-list separator,
    then [p]. *)
Definition child_env (pf : Platform) (p : string) (s : State) : dict :=
  <["PATH" := venv_bin pf +:+ os_pathsep pf +:+ p]> (os_environ s).

(** The state once [text] has gone through the Log Sink: the text and one
    line feed at the end of the buffer, the view at the end. *)
Definition logged (text : string) (s : State) : State :=
  with_terminal_output
    {| content := buffer s +:+ text +:+ LF;
       seen := String.length (buffer s +:+ text +:+ LF) |} s.

(** The state once a request has been handed to the operating system. *)
Definition requested (inv : Invocation) (s : State) : State :=
  with_spawned (spawned s ++ [inv]) s.

(** Logging that skips an empty text. *)
Definition logged_if_any (t : string) (s : State) : State :=
  if Str.truthy t then logged t s else s.

(** The state of a shell command at the moment its child is spawned: the
    command is announced in the log, the copy of the environment holds the
    extended [PATH], the request is recorded. *)
Definition shell_spawned (pf : Platform) (p : string) (s : State) : State :=
  requested (shell_request (shell_entry s) (child_env pf p s))
    (with_locals (locals s ++ [child_env pf p s])
       (logged ("Executing in venv: " +:+ shell_entry s) s)).

(** What is left of [run_shell_command] once the command is announced
    and the environment of the child is prepared. *)
Definition shell_tail (pf : Platform) (os : Children) (cmd : string)
    (e : dict) : M unit :=
  let* result := subprocess_run pf os (shell_request cmd e) in
  (if attribute_truthy (stdout result) then log_attribute (stdout result)
   else ret tt) >>
  if attribute_truthy (stderr result) then log_attribute (stderr result)
  else ret tt.

(** A relation between the state before and the state after holds along
    an operation, however it ends. *)
Definition along (R : State → State → Prop) {A} (c : M A) : Prop :=
  ∀ s, R s (after c s).

(** Between [s] and [s'] no message box was opened, and every request
    made left its child's output uncaptured, on the inherited console. *)
Definition uncaptured_run (s s' : State) : Prop :=
  dialogs s' = dialogs s
  ∧ ∃ l, spawned s' = spawned s ++ l
         ∧ Forall (λ inv, capture_output inv = false) l.

(** The user types a command into the entry field. *)
Definition type_command (cmd : string) (s : State) : State :=
  {| terminal_output := terminal_output s; selected := selected s;
     shell_entry := cmd; dialogs := dialogs s;
     console := console s; os_environ := os_environ s;
     locals := locals s; spawned := spawned s |}.

(** *** Vocabulary for the remaining functions *)

(** The requests of [install_os_dependencies]. *)
Definition apt_update_request : Invocation :=
  plain_request ["sudo"; "apt-get"; "update"].

Definition apt_install_request : Invocation :=
  plain_request ["sudo"; "apt-get"; "install"; "-y";
                 "python" +:+ PYTHON_VERSION; "python3-venv"].

Definition brew_request : Invocation :=
  plain_request ["brew"; "install"; "python@" +:+ PYTHON_VERSION].

(** The line [install_os_dependencies] logs first. *)
Definition detected_os_line (pf : Platform) : string :=
  "Detected OS: " +:+ system pf +:+ " " +:+ release pf +:+ " " +:+ version pf.

(** The buffer only grew: the earlier text is still there, at the front. *)
Definition log_extended (s s' : State) : Prop :=
  ∃ t, buffer s' = buffer s +:+ t.

(** The log widget is as it was, or its view is at the end of its text. *)
Definition view_follows (s s' : State) : Prop :=
  terminal_output s' = terminal_output s ∨ scrolled_to_end s'.

(** The host environment and the text of the command entry are as they
    were. *)
Definition host_untouched (s s' : State) : Prop :=
  os_environ s' = os_environ s ∧ shell_entry s' = shell_entry s.

(** A request that runs an argument list directly: no shell, and the
    environment of the host. *)
Definition direct (inv : Invocation) : Prop :=
  shell inv = false ∧ env inv = None ∧ ∃ argv, args inv = Argv argv.

(** Every request made in between was direct. *)
Definition direct_requests (s s' : State) : Prop :=
  ∃ l, spawned s' = spawned s ++ l ∧ Forall direct l.

(** How an action that ends by selecting the terminal tab leaves the
    notebook: on the terminal tab if it returned, as it was if it raised. *)
Definition tab_outcome {A} (s0 : State) (r : Result A * State) : Prop :=
  match fst r with
  | Ok _ => selected (snd r) = terminal_tab
  | Raise _ => selected (snd r) = selected s0
  end.

(** The state of [on_create_venv] once the OS-level dependencies have been
    dealt with. *)
Definition os_checked (pf : Platform) (os : Children) (s : State) : State :=
  after (install_os_dependencies pf os)
        (logged "Checking OS dependencies..." s).

(** The selected tab is as it was. *)
Definition same_tab (s s' : State) : Prop := selected s' = selected s.

(** The log widget and the message boxes are as they were. *)
Definition silent (s s' : State) : Prop :=
  terminal_output s' = terminal_output s ∧ dialogs s' = dialogs s.

(** A macOS host. *)
Definition macos : Platform :=
  {| system := "Darwin"; release := "23.1.0"; version := "Darwin Kernel";
     os_name := posix; executable := "/usr/local/bin/python3";
     locale_decode := Sample.ascii_decode;
     format_report := Sample.short_report |}.

(** A program started on a host whose environment has no [PATH]. *)
Definition pathless_start (cmd : string) : State :=
  {| terminal_output := {| content := ""; seen := 0 |};
     selected := menu_tab;
     shell_entry := cmd;
     dialogs := [];
     console := [];
     os_environ := {[ "HOME" := "/root" ]};
     locals := [];
     spawned := [] |}.

(** *** Vocabulary added with the decoding of captured output *)

(** How [compile_requirements] and [sync_requirements] log the result of
    their child: the standard output, then the standard error unless it is
    empty. *)
Definition log_both (result : CompletedProcess) : M unit :=
  log_attribute (stdout result) >>
  if attribute_truthy (stderr result) then log_attribute (stderr result)
  else ret tt.

(** Two hosts whose children behave alike except, possibly, for their exit
    codes. *)
Definition same_but_codes (os os' : Children) : Prop :=
  ∀ trace inv,
    match os trace inv, os' trace inv with
    | Completed _ out err, Completed _ out' err' => out = out' ∧ err = err'
    | NotStarted e, NotStarted e' => e = e'
    | _, _ => False
    end.

(** The list of requests is as it was. *)
Definition same_spawned (s s' : State) : Prop := spawned s' = spawned s.

(** The two lines every run of [on_create_venv] starts the log with. *)
Definition create_venv_opening (pf : Platform) : string :=
  "Checking OS dependencies..." +:+ LF +:+ detected_os_line pf +:+ LF.

(** What [install_os_dependencies] does once the detected OS is logged:
    the branch on the name of the system. *)
Definition os_packages (pf : Platform) (os : Children) : M unit :=
  if String.eqb (system pf) "Linux" then
    run_argv pf os ["sudo"; "apt-get"; "update"] >>
    run_argv pf os ["sudo"; "apt-get"; "install"; "-y";
                    "python" +:+ PYTHON_VERSION; "python3-venv"] >>
    ret tt
  else if String.eqb (system pf) "Darwin" then
    run_argv pf os ["brew"; "install"; "python@" +:+ PYTHON_VERSION] >>
    ret tt
  else if String.eqb (system pf) "Windows" then
    log_to_terminal "Ensure Python is installed manually on Windows."
  else
    log_to_terminal "Unsupported OS.".

(** What is left of [on_create_venv] once its first two lines are in the
    log. *)
Definition create_venv_rest (pf : Platform) (os : Children) : M unit :=
  os_packages pf os >>
  log_to_terminal "Creating virtual environment..." >>
  let* activate_script := create_venv pf os in
  log_to_terminal ("Virtual environment created at " +:+ activate_script) >>
  log_to_terminal "Installing pip-tools..." >>
  install_pip_tools pf os >>
  log_to_terminal "pip-tools installed." >>
  tab_control_select terminal_tab.

(** The bytes on which the decoding of two captured streams fails, the
    standard output being decoded first; [None] when both decode. *)
Definition first_undecodable (pf : Platform) (out err : string)
    : option string :=
  match translate_newlines pf out with
  | None => Some out
  | Some _ =>
      match translate_newlines pf err with
      | None => Some err
      | Some _ => None
      end
  end.

(** Two results of [subprocess.run] with the same streams. *)
Definition same_streams (r r' : CompletedProcess) : Prop :=
  stdout r = stdout r' ∧ stderr r = stderr r'.

(** Two runs end alike: in the same state, both returning values related
    by [Q] or both raising the same exception. *)
Definition alike {A} (Q : A → A → Prop) (x y : Result A * State) : Prop :=
  snd x = snd y
  ∧ match fst x, fst y with
    | Ok a, Ok b => Q a b
    | Raise e, Raise e' => e = e'
    | _, _ => False
    end.

(** * Properties *)

Example join_posix :
  OsPath.join posix VENV_NAME ["bin"; "activate"] = "venv_running/bin/activate".
Proof. reflexivity. Qed.

Example join_nt :
  OsPath.join nt VENV_NAME ["Scripts"; "activate"] = "venv_running\Scripts\activate".
Proof. reflexivity. Qed.

Example strip_spaces : Str.strip "  pip list  " = "pip list".
Proof. reflexivity. Qed.

Example universal_newlines :
  Str.replace_cr (Str.replace_crlf
    ("a" +:+ String "013"%char LF +:+ "b" +:+ String "013"%char "c"
     +:+ String "013"%char (String "013"%char LF)))
  = "a" +:+ LF +:+ "b" +:+ LF +:+ "c" +:+ LF +:+ LF.
Proof. reflexivity. Qed.

Example compile_on_linux :
  buffer (after (on_compile Sample.linux Sample.chatty) (Sample.start "")) =
  "Running pip-compile..." +:+ LF +:+ "out" +:+ LF +:+ LF +:+ "warn" +:+ LF +:+ LF.
Proof. reflexivity. Qed.

(** ** Strings *)

Lemma str_app_cons (x : ascii) (a b : string) :
  String x a +:+ b = String x (a +:+ b).
Proof. reflexivity. Qed.

Lemma str_app_assoc (a b c : string) : (a +:+ b) +:+ c = a +:+ b +:+ c.
Proof. induction a as [|x a IH]; [done|]. rewrite !str_app_cons. by f_equal. Qed.

Lemma str_app_nil_r (a : string) : a +:+ "" = a.
Proof. induction a as [|x a IH]; [done|]. rewrite str_app_cons. by f_equal. Qed.

Lemma str_length_app (a b : string) :
  String.length (a +:+ b) = (String.length a + String.length b)%nat.
Proof.
  induction a as [|x a IH]; [done|]. rewrite str_app_cons. cbn. by f_equal.
Qed.

Lemma truthy_false (s : string) : Str.truthy s = false ↔ s = "".
Proof. by destruct s. Qed.

Lemma lstrip_blank (s : string) : Str.blank s = true → Str.lstrip s = "".
Proof.
  induction s as [|c r IH]; [done|]. cbn.
  intros [Hc Hr]%andb_true_iff. rewrite Hc. auto.
Qed.

Lemma rstrip_empty_blank (s : string) : Str.rstrip s = "" → Str.blank s = true.
Proof.
  induction s as [|c r IH]; [done|]. cbn.
  destruct (Str.rstrip r) eqn:Hr; [|done].
  destruct (Str.isspace c); [|done]. auto.
Qed.

Lemma lstrip_keeps_blank (s : string) :
  Str.blank (Str.lstrip s) = true → Str.blank s = true.
Proof.
  induction s as [|c r IH]; [done|]. cbn.
  destruct (Str.isspace c) eqn:Hc; [auto|].
  cbn. by rewrite Hc.
Qed.

(** [not cmd.strip()] holds exactly for blank strings. *)
Lemma strip_empty_iff_blank (s : string) :
  Str.truthy (Str.strip s) = false ↔ Str.blank s = true.
Proof.
  rewrite truthy_false. unfold Str.strip. split.
  - intros H. by apply lstrip_keeps_blank, rstrip_empty_blank.
  - intros H. by rewrite (lstrip_blank s H).
Qed.

(** ** Equations of the primitives *)

Arguments OsPath.join : simpl never.

Lemma log_to_terminal_eq (text : string) (s : State) :
  log_to_terminal text s = (Ok tt, logged text s).
Proof. reflexivity. Qed.

Lemma bin_subdir_unless_windows (pf : Platform) :
  (if negb (String.eqb (system pf) "Windows") then "bin" else "Scripts")
  = bin_subdir pf.
Proof. unfold bin_subdir. by destruct (String.eqb _ _). Qed.

Lemma bin_subdir_windows (pf : Platform) :
  system pf = "Windows" → bin_subdir pf = "Scripts".
Proof. intros H. unfold bin_subdir. by rewrite H. Qed.

Lemma bin_subdir_elsewhere (pf : Platform) :
  system pf ≠ "Windows" → bin_subdir pf = "bin".
Proof.
  intros H. unfold bin_subdir.
  by destruct (String.eqb_spec (system pf) "Windows").
Qed.

(** Writing through an alias of [os.environ] would change it. *)
Lemma alias_write_reaches_environ (k v : string) (s : State) :
  os_environ (snd (dict_setitem environ_ref k v s)) = <[k := v]> (os_environ s).
Proof. reflexivity. Qed.

(** ** Equations of [subprocess.run] *)

Section Run.

Variable pf : Platform.
Variable os : Children.

(** The call returns text for both streams when the child has completed
    and both streams can be decoded, whatever the flavour of the host. *)
Lemma subprocess_run_text inv s rc outb errb out err :
  capture_output inv = true →
  text inv = true →
  os (spawned s) inv = Completed rc outb errb →
  translate_newlines pf outb = Some out →
  translate_newlines pf errb = Some err →
  subprocess_run pf os inv s =
  (Ok {| returncode := rc; stdout := Some out; stderr := Some err |},
   requested inv s).
Proof.
  intros Hc Ht Ho Hout Herr.
  unfold subprocess_run. rewrite Ho, Hc, Ht.
  unfold bind, communicate_text, reader_thread_read, bind, ret.
  destruct (os_name pf); by rewrite Hout, Herr.
Qed.

Lemma subprocess_run_inherited inv s rc out err :
  capture_output inv = false →
  os (spawned s) inv = Completed rc out err →
  subprocess_run pf os inv s =
  (Ok {| returncode := rc; stdout := None; stderr := None |},
   with_console (console s ++ [out; err]) (requested inv s)).
Proof. intros Hc Ho. unfold subprocess_run. by rewrite Ho, Hc. Qed.

Lemma subprocess_run_not_started inv s e :
  os (spawned s) inv = NotStarted e →
  subprocess_run pf os inv s = (Raise e, requested inv s).
Proof. intros Ho. unfold subprocess_run. by rewrite Ho. Qed.

(** On a POSIX host, output that cannot be decoded makes the call raise
    once the child has exited. *)
Lemma subprocess_run_undecodable_posix inv s rc outb errb bad :
  os_name pf = posix →
  capture_output inv = true →
  text inv = true →
  os (spawned s) inv = Completed rc outb errb →
  first_undecodable pf outb errb = Some bad →
  subprocess_run pf os inv s = (Raise (UnicodeDecodeError bad), requested inv s).
Proof.
  intros Hn Hc Ht Ho Hbad.
  unfold subprocess_run. rewrite Ho, Hc, Ht.
  unfold bind, communicate_text. rewrite Hn.
  unfold first_undecodable in Hbad.
  destruct (translate_newlines pf outb); [|by simplify_eq].
  destruct (translate_newlines pf errb); by simplify_eq.
Qed.

(** Whatever the outcome, the request is recorded, once. *)
Lemma subprocess_run_spawned inv s :
  spawned (snd (subprocess_run pf os inv s)) = spawned s ++ [inv].
Proof.
  unfold subprocess_run. destruct (os _ _) as [rc out err|e]; [|done].
  destruct (capture_output inv); [|done].
  destruct (text inv); [|done].
  unfold bind, communicate_text, reader_thread_read, print_stderr, modify,
    bind, ret, raise.
  by destruct (os_name pf), (translate_newlines pf out),
    (translate_newlines pf err).
Qed.

End Run.

(** ** Equations of the module's functions *)

Lemma strip_truthy_iff_not_blank (s : string) :
  Str.truthy (Str.strip s) = true ↔ Str.blank s = false.
Proof.
  pose proof (strip_empty_iff_blank s) as H.
  destruct (Str.truthy _), (Str.blank s); intuition congruence.
Qed.

(** A copy is a new object, stored after the existing ones: reading it
    back gives the copied items, writing to it touches nothing else. *)
Lemma read_fresh (l : list dict) (d : dict) (s : State) :
  read_dict (local_ref (length l)) (with_locals (l ++ [d]) s) = d.
Proof. cbn. by rewrite list_lookup_middle. Qed.

Lemma write_fresh (l : list dict) (d d' : dict) (s : State) :
  write_dict (local_ref (length l)) d' (with_locals (l ++ [d]) s)
  = with_locals (l ++ [d']) s.
Proof.
  unfold write_dict, with_locals; cbn. f_equal.
  rewrite insert_app_r_alt by lia. by rewrite Nat.sub_diag.
Qed.

Lemma log_both_text (rc : Z) (out err : string) (s : State) :
  log_both {| returncode := rc; stdout := Some out; stderr := Some err |} s
  = (Ok tt, logged_if_any err (logged out s)).
Proof.
  unfold log_both, bind, logged_if_any. cbn.
  by destruct (Str.truthy err).
Qed.

Ltac to_requests :=
  unfold compile_request, sync_request, list_request, pip_tools_request,
    venv_request, captured_request, plain_request, shell_request,
    venv_program, venv_bin in *.

Section Equations.

Variable pf : Platform.
Variable os : Children.

Lemma compile_requirements_eq s :
  compile_requirements pf os s
  = (let* result := subprocess_run pf os (compile_request pf) in
     log_both result) s.
Proof.
  unfold compile_requirements, platform_system.
  unfold bind at 1. unfold ret at 1.
  by rewrite bin_subdir_unless_windows.
Qed.

Lemma sync_requirements_eq s :
  sync_requirements pf os s
  = (let* result := subprocess_run pf os (sync_request pf) in
     log_both result) s.
Proof.
  unfold sync_requirements, platform_system.
  unfold bind at 1. unfold ret at 1.
  by rewrite bin_subdir_unless_windows.
Qed.

Lemma get_installed_packages_eq s :
  get_installed_packages pf os s
  = (let* result := subprocess_run pf os (list_request pf) in
     ret (stdout result)) s.
Proof.
  unfold get_installed_packages, platform_system.
  unfold bind at 1. unfold ret at 1.
  by rewrite bin_subdir_unless_windows.
Qed.

Lemma install_pip_tools_eq s :
  install_pip_tools pf os s
  = (subprocess_run pf os (pip_tools_request pf) >> ret tt) s.
Proof.
  unfold install_pip_tools, platform_system.
  unfold bind at 1. unfold ret at 1.
  by rewrite bin_subdir_unless_windows.
Qed.

Lemma create_venv_eq s :
  create_venv pf os s
  = (subprocess_run pf os (venv_request pf) >>
     ret (venv_program pf "activate")) s.
Proof. reflexivity. Qed.

Lemma compile_requirements_returned s rc outb errb out err :
  os (spawned s) (compile_request pf) = Completed rc outb errb →
  translate_newlines pf outb = Some out →
  translate_newlines pf errb = Some err →
  compile_requirements pf os s =
  (Ok tt, logged_if_any err (logged out (requested (compile_request pf) s))).
Proof.
  intros Ho Hout Herr. rewrite compile_requirements_eq. unfold bind.
  rewrite (subprocess_run_text pf os (compile_request pf) s rc outb errb out err
             eq_refl eq_refl Ho Hout Herr).
  apply log_both_text.
Qed.

Lemma compile_requirements_not_started s e :
  os (spawned s) (compile_request pf) = NotStarted e →
  compile_requirements pf os s = (Raise e, requested (compile_request pf) s).
Proof.
  intros Ho. rewrite compile_requirements_eq. unfold bind.
  by rewrite (subprocess_run_not_started pf os (compile_request pf) s e Ho).
Qed.

Lemma sync_requirements_returned s rc outb errb out err :
  os (spawned s) (sync_request pf) = Completed rc outb errb →
  translate_newlines pf outb = Some out →
  translate_newlines pf errb = Some err →
  sync_requirements pf os s =
  (Ok tt, logged_if_any err (logged out (requested (sync_request pf) s))).
Proof.
  intros Ho Hout Herr. rewrite sync_requirements_eq. unfold bind.
  rewrite (subprocess_run_text pf os (sync_request pf) s rc outb errb out err
             eq_refl eq_refl Ho Hout Herr).
  apply log_both_text.
Qed.

Lemma sync_requirements_not_started s e :
  os (spawned s) (sync_request pf) = NotStarted e →
  sync_requirements pf os s = (Raise e, requested (sync_request pf) s).
Proof.
  intros Ho. rewrite sync_requirements_eq. unfold bind.
  by rewrite (subprocess_run_not_started pf os (sync_request pf) s e Ho).
Qed.

Lemma get_installed_packages_returned s rc outb errb out err :
  os (spawned s) (list_request pf) = Completed rc outb errb →
  translate_newlines pf outb = Some out →
  translate_newlines pf errb = Some err →
  get_installed_packages pf os s
  = (Ok (Some out), requested (list_request pf) s).
Proof.
  intros Ho Hout Herr. rewrite get_installed_packages_eq. unfold bind.
  by rewrite (subprocess_run_text pf os (list_request pf) s rc outb errb out err
                eq_refl eq_refl Ho Hout Herr).
Qed.

Lemma get_installed_packages_not_started s e :
  os (spawned s) (list_request pf) = NotStarted e →
  get_installed_packages pf os s = (Raise e, requested (list_request pf) s).
Proof.
  intros Ho. rewrite get_installed_packages_eq. unfold bind.
  by rewrite (subprocess_run_not_started pf os (list_request pf) s e Ho).
Qed.

Lemma create_venv_completed s rc out err :
  os (spawned s) (venv_request pf) = Completed rc out err →
  create_venv pf os s =
  (Ok (venv_program pf "activate"),
   with_console (console s ++ [out; err]) (requested (venv_request pf) s)).
Proof.
  intros Ho. rewrite create_venv_eq. unfold bind.
  by rewrite (subprocess_run_inherited pf os (venv_request pf) s rc out err eq_refl Ho).
Qed.

Lemma create_venv_not_started s e :
  os (spawned s) (venv_request pf) = NotStarted e →
  create_venv pf os s = (Raise e, requested (venv_request pf) s).
Proof.
  intros Ho. rewrite create_venv_eq. unfold bind.
  by rewrite (subprocess_run_not_started pf os (venv_request pf) s e Ho).
Qed.

Lemma install_pip_tools_completed s rc out err :
  os (spawned s) (pip_tools_request pf) = Completed rc out err →
  install_pip_tools pf os s =
  (Ok tt, with_console (console s ++ [out; err])
            (requested (pip_tools_request pf) s)).
Proof.
  intros Ho. rewrite install_pip_tools_eq. unfold bind.
  by rewrite (subprocess_run_inherited pf os (pip_tools_request pf) s rc out err eq_refl Ho).
Qed.

Lemma install_pip_tools_not_started s e :
  os (spawned s) (pip_tools_request pf) = NotStarted e →
  install_pip_tools pf os s = (Raise e, requested (pip_tools_request pf) s).
Proof.
  intros Ho. rewrite install_pip_tools_eq. unfold bind.
  by rewrite (subprocess_run_not_started pf os (pip_tools_request pf) s e Ho).
Qed.

Lemma run_shell_command_blank s :
  Str.blank (shell_entry s) = true →
  run_shell_command pf os s = (Ok tt, logged "No command entered." s).
Proof.
  intros Hb%strip_empty_iff_blank.
  unfold run_shell_command, shell_entry_get, gets, bind.
  by rewrite Hb.
Qed.

Lemma run_shell_command_prepared s p :
  Str.blank (shell_entry s) = false →
  os_environ s !! "PATH" = Some p →
  run_shell_command pf os s =
  shell_tail pf os (shell_entry s) (child_env pf p s)
    (with_locals (locals s ++ [child_env pf p s])
       (logged ("Executing in venv: " +:+ shell_entry s) s)).
Proof.
  intros Hb%strip_truthy_iff_not_blank Hp.
  unfold run_shell_command, shell_entry_get.
  unfold bind at 1. unfold gets at 1. rewrite Hb. cbn [negb].
  unfold bind at 1. rewrite log_to_terminal_eq.
  unfold bind at 1. unfold dict_copy at 1.
  change (read_dict environ_ref (logged _ s)) with (os_environ s).
  change (locals (logged _ s)) with (locals s).
  unfold platform_system. unfold bind at 1. unfold ret at 1.
  unfold bind at 1. unfold dict_getitem at 1.
  rewrite read_fresh, Hp.
  unfold bind at 1. unfold dict_setitem, modify.
  rewrite read_fresh, write_fresh.
  unfold bind at 1. unfold gets at 1.
  rewrite read_fresh.
  reflexivity.
Qed.

Lemma run_shell_command_returned s p rc outb errb out err :
  Str.blank (shell_entry s) = false →
  os_environ s !! "PATH" = Some p →
  os (spawned s) (shell_request (shell_entry s) (child_env pf p s))
  = Completed rc outb errb →
  translate_newlines pf outb = Some out →
  translate_newlines pf errb = Some err →
  run_shell_command pf os s =
  (Ok tt, logged_if_any err (logged_if_any out (shell_spawned pf p s))).
Proof.
  intros Hb Hp Ho Hout Herr. rewrite (run_shell_command_prepared s p Hb Hp).
  unfold shell_tail. unfold bind at 1.
  rewrite (subprocess_run_text pf os (shell_request (shell_entry s) (child_env pf p s))
             (with_locals (locals s ++ [child_env pf p s])
                (logged ("Executing in venv: " +:+ shell_entry s) s))
             rc outb errb out err
             eq_refl eq_refl Ho Hout Herr).
  unfold bind, shell_spawned, logged_if_any. cbn.
  destruct (Str.truthy out), (Str.truthy err); reflexivity.
Qed.

Lemma run_shell_command_not_started s p e :
  Str.blank (shell_entry s) = false →
  os_environ s !! "PATH" = Some p →
  os (spawned s) (shell_request (shell_entry s) (child_env pf p s))
  = NotStarted e →
  run_shell_command pf os s = (Raise e, shell_spawned pf p s).
Proof.
  intros Hb Hp Ho. rewrite (run_shell_command_prepared s p Hb Hp).
  unfold shell_tail. unfold bind at 1.
  by rewrite (subprocess_run_not_started pf os (shell_request (shell_entry s) (child_env pf p s))
             (with_locals (locals s ++ [child_env pf p s])
                (logged ("Executing in venv: " +:+ shell_entry s) s))
             e Ho).
Qed.

Lemma compile_requirements_undecodable s rc outb errb bad :
  os_name pf = posix →
  os (spawned s) (compile_request pf) = Completed rc outb errb →
  first_undecodable pf outb errb = Some bad →
  compile_requirements pf os s
  = (Raise (UnicodeDecodeError bad), requested (compile_request pf) s).
Proof.
  intros Hn Ho Hbad. rewrite compile_requirements_eq. unfold bind.
  by rewrite (subprocess_run_undecodable_posix pf os (compile_request pf) s
                rc outb errb bad Hn eq_refl eq_refl Ho Hbad).
Qed.

Lemma sync_requirements_undecodable s rc outb errb bad :
  os_name pf = posix →
  os (spawned s) (sync_request pf) = Completed rc outb errb →
  first_undecodable pf outb errb = Some bad →
  sync_requirements pf os s
  = (Raise (UnicodeDecodeError bad), requested (sync_request pf) s).
Proof.
  intros Hn Ho Hbad. rewrite sync_requirements_eq. unfold bind.
  by rewrite (subprocess_run_undecodable_posix pf os (sync_request pf) s
                rc outb errb bad Hn eq_refl eq_refl Ho Hbad).
Qed.

Lemma run_shell_command_undecodable s p rc outb errb bad :
  os_name pf = posix →
  Str.blank (shell_entry s) = false →
  os_environ s !! "PATH" = Some p →
  os (spawned s) (shell_request (shell_entry s) (child_env pf p s))
  = Completed rc outb errb →
  first_undecodable pf outb errb = Some bad →
  run_shell_command pf os s
  = (Raise (UnicodeDecodeError bad), shell_spawned pf p s).
Proof.
  intros Hn Hb Hp Ho Hbad. rewrite (run_shell_command_prepared s p Hb Hp).
  unfold shell_tail. unfold bind at 1.
  by rewrite (subprocess_run_undecodable_posix pf os
                (shell_request (shell_entry s) (child_env pf p s))
                (with_locals (locals s ++ [child_env pf p s])
                   (logged ("Executing in venv: " +:+ shell_entry s) s))
                rc outb errb bad Hn eq_refl eq_refl Ho Hbad).
Qed.

Lemma run_shell_command_no_path s :
  Str.blank (shell_entry s) = false →
  os_environ s !! "PATH" = None →
  run_shell_command pf os s =
  (Raise (KeyError "PATH"),
   with_locals (locals s ++ [os_environ s])
     (logged ("Executing in venv: " +:+ shell_entry s) s)).
Proof.
  intros Hb%strip_truthy_iff_not_blank Hp.
  unfold run_shell_command, shell_entry_get.
  unfold bind at 1. unfold gets at 1. rewrite Hb. cbn [negb].
  unfold bind at 1. rewrite log_to_terminal_eq.
  unfold bind at 1. unfold dict_copy at 1.
  change (read_dict environ_ref (logged _ s)) with (os_environ s).
  change (locals (logged _ s)) with (locals s).
  unfold platform_system. unfold bind at 1. unfold ret at 1.
  unfold bind at 1. unfold dict_getitem at 1.
  by rewrite read_fresh, Hp.
Qed.

Lemma on_compile_eq s :
  on_compile pf os s
  = compile_requirements pf os (logged "Running pip-compile..." s).
Proof. reflexivity. Qed.

Lemma on_sync_eq s :
  on_sync pf os s = sync_requirements pf os (logged "Running pip-sync..." s).
Proof. reflexivity. Qed.

End Equations.

(** ** Relations kept along every function *)

Section Along.

Variable R : State → State → Prop.
Hypothesis R_refl : ∀ s, R s s.
Hypothesis R_trans : ∀ s1 s2 s3, R s1 s2 → R s2 s3 → R s1 s3.

Lemma ret_along {A} (a : A) : along R (ret a).
Proof. intros s. apply R_refl. Qed.

Lemma raise_along {A} (e : PyExn) : along R (@raise A e).
Proof. intros s. apply R_refl. Qed.

Lemma bind_along {A B} (c : M A) (k : A → M B) :
  along R c → (∀ a, along R (k a)) → along R (bind c k).
Proof.
  intros Hc Hk s. specialize (Hc s). unfold after, bind in *.
  destruct (c s) as [[a|e] s1]; cbn [snd] in *; [|exact Hc].
  eapply R_trans; [exact Hc | apply Hk].
Qed.

Hypothesis R_logged : ∀ t s, R s (logged t s).
Hypothesis R_console : ∀ c s, R s (with_console c s).

Variable pf : Platform.
Variable os : Children.

Lemma log_to_terminal_along (t : string) : along R (log_to_terminal t).
Proof. intros s. unfold after. rewrite log_to_terminal_eq. apply R_logged. Qed.

Lemma log_attribute_along (v : option string) : along R (log_attribute v).
Proof.
  destruct v; [apply log_to_terminal_along | apply raise_along].
Qed.

Lemma print_stderr_along (t : string) : along R (print_stderr t).
Proof. intros s. apply R_console. Qed.

Lemma communicate_text_along (out err : string) :
  along R (communicate_text pf out err).
Proof.
  unfold communicate_text, reader_thread_read.
  destruct (os_name pf), (translate_newlines pf out),
    (translate_newlines pf err);
    repeat first [ apply ret_along | apply raise_along
                 | apply print_stderr_along
                 | apply bind_along; [|intros ?] ].
Qed.

Lemma subprocess_run_along (inv : Invocation) :
  (∀ s, R s (requested inv s)) → along R (subprocess_run pf os inv).
Proof.
  intros Hreq s. unfold after, subprocess_run.
  destruct (os _ _) as [rc out err|e]; [|apply Hreq].
  destruct (capture_output inv).
  - destruct (text inv); [|apply Hreq].
    eapply R_trans; [apply Hreq|].
    apply (bind_along (communicate_text pf out err)
             (λ streams, ret {| returncode := rc; stdout := fst streams;
                                stderr := snd streams |})).
    + apply communicate_text_along.
    + intros ?. apply ret_along.
  - eapply R_trans; [apply Hreq | apply R_console].
Qed.

Hypothesis R_plain : ∀ argv s, R s (requested (plain_request argv) s).
Hypothesis R_captured : ∀ argv s, R s (requested (captured_request argv) s).

Lemma run_argv_along (argv : list string) : along R (run_argv pf os argv).
Proof. apply (subprocess_run_along (plain_request argv)), R_plain. Qed.

Lemma run_argv_captured_along (argv : list string) :
  along R (run_argv_captured pf os argv).
Proof. apply (subprocess_run_along (captured_request argv)), R_captured. Qed.

Ltac steps :=
  repeat first
    [ apply ret_along
    | apply log_to_terminal_along
    | apply log_attribute_along
    | apply run_argv_along
    | apply run_argv_captured_along
    | assumption
    | apply bind_along; [|intros ?] ].

Lemma install_os_dependencies_along :
  along R (install_os_dependencies pf os).
Proof.
  unfold install_os_dependencies, get_os_info.
  apply bind_along; [apply ret_along|]. intros [[sys rel] ver].
  apply bind_along; [apply log_to_terminal_along|]. intros _.
  destruct (String.eqb sys "Linux"); [steps|].
  destruct (String.eqb sys "Darwin"); [steps|].
  destruct (String.eqb sys "Windows"); steps.
Qed.

Lemma create_venv_along : along R (create_venv pf os).
Proof. unfold create_venv, platform_system. steps. Qed.

Lemma install_pip_tools_along : along R (install_pip_tools pf os).
Proof. unfold install_pip_tools, platform_system. steps. Qed.

Lemma compile_requirements_along : along R (compile_requirements pf os).
Proof.
  unfold compile_requirements, platform_system.
  apply bind_along; [apply ret_along|]. intros sys.
  apply bind_along; [apply run_argv_captured_along|]. intros result.
  apply bind_along; [apply log_attribute_along|]. intros _.
  destruct (attribute_truthy _); steps.
Qed.

Lemma sync_requirements_along : along R (sync_requirements pf os).
Proof.
  unfold sync_requirements, platform_system.
  apply bind_along; [apply ret_along|]. intros sys.
  apply bind_along; [apply run_argv_captured_along|]. intros result.
  apply bind_along; [apply log_attribute_along|]. intros _.
  destruct (attribute_truthy _); steps.
Qed.

Lemma get_installed_packages_along :
  along R (get_installed_packages pf os).
Proof. unfold get_installed_packages, platform_system. steps. Qed.

Lemma on_compile_along : along R (on_compile pf os).
Proof.
  pose proof compile_requirements_along. unfold on_compile. steps.
Qed.

Lemma on_sync_along : along R (on_sync pf os).
Proof.
  pose proof sync_requirements_along. unfold on_sync. steps.
Qed.

Hypothesis R_selected : ∀ t s, R s (with_selected t s).

Lemma on_create_venv_along : along R (on_create_venv pf os).
Proof.
  pose proof install_os_dependencies_along.
  pose proof create_venv_along.
  pose proof install_pip_tools_along.
  assert (along R (tab_control_select terminal_tab))
    by (intros s; apply R_selected).
  unfold on_create_venv. steps.
Qed.

Lemma os_packages_along : along R (os_packages pf os).
Proof.
  unfold os_packages.
  destruct (String.eqb (system pf) "Linux"); [steps|].
  destruct (String.eqb (system pf) "Darwin"); [steps|].
  destruct (String.eqb (system pf) "Windows"); steps.
Qed.

Lemma create_venv_rest_along : along R (create_venv_rest pf os).
Proof.
  pose proof os_packages_along.
  pose proof create_venv_along.
  pose proof install_pip_tools_along.
  assert (along R (tab_control_select terminal_tab))
    by (intros s; apply R_selected).
  unfold create_venv_rest. steps.
Qed.

Hypothesis R_dialogs : ∀ d s, R s (with_dialogs d s).

Lemma on_status_along : along R (on_status pf os).
Proof.
  pose proof get_installed_packages_along.
  unfold on_status. apply bind_along; [assumption|]. intros packages s.
  apply R_dialogs.
Qed.

Hypothesis R_shell : ∀ cmd e s, R s (requested (shell_request cmd e) s).
Hypothesis R_locals : ∀ l s, R s (with_locals l s).

Lemma shell_tail_along (cmd : string) (e : dict) :
  along R (shell_tail pf os cmd e).
Proof.
  unfold shell_tail.
  apply bind_along; [apply subprocess_run_along, R_shell|]. intros result.
  apply bind_along.
  - destruct (attribute_truthy _); steps.
  - intros _. destruct (attribute_truthy _); steps.
Qed.

Lemma run_shell_command_along : along R (run_shell_command pf os).
Proof.
  intros s. unfold after.
  destruct (Str.blank (shell_entry s)) eqn:Hb.
  { rewrite (run_shell_command_blank pf os s Hb). apply R_logged. }
  destruct (os_environ s !! "PATH") as [p|] eqn:Hp.
  2: { rewrite (run_shell_command_no_path pf os s Hb Hp). cbn [snd].
       eapply R_trans; [apply R_logged | apply R_locals]. }
  rewrite (run_shell_command_prepared pf os s p Hb Hp).
  eapply R_trans; [apply R_logged|].
  eapply R_trans; [apply R_locals|].
  apply shell_tail_along.
Qed.

End Along.

(** ** What a function requests *)

Lemma same_spawned_trans (s1 s2 s3 : State) :
  same_spawned s1 s2 → same_spawned s2 s3 → same_spawned s1 s3.
Proof. unfold same_spawned. congruence. Qed.

Lemma bind_spawned {A B} (c : M A) (k : A → M B) (s : State)
    (l : list Invocation) :
  spawned (snd (c s)) = l →
  (∀ a, along same_spawned (k a)) →
  spawned (snd (bind c k s)) = l.
Proof.
  intros Hc Hk. unfold bind.
  destruct (c s) as [[a|e] s1]; cbn [snd] in *; [|exact Hc].
  rewrite <- Hc. apply (Hk a s1).
Qed.

Lemma log_attribute_same_spawned (v : option string) :
  along same_spawned (log_attribute v).
Proof. apply log_attribute_along; by intros. Qed.

Lemma log_both_same_spawned (result : CompletedProcess) :
  along same_spawned (log_both result).
Proof.
  unfold log_both.
  apply bind_along; [exact same_spawned_trans|..].
  - apply log_attribute_same_spawned.
  - intros _. destruct (attribute_truthy _).
    + apply log_attribute_same_spawned.
    + by intros s.
Qed.

Lemma captured_spawned (pf : Platform) (os : Children) (s : State) :
  spawned (after (compile_requirements pf os) s)
  = spawned s ++ [compile_request pf]
  ∧ spawned (after (sync_requirements pf os) s)
    = spawned s ++ [sync_request pf]
  ∧ spawned (after (get_installed_packages pf os) s)
    = spawned s ++ [list_request pf].
Proof.
  unfold after.
  rewrite compile_requirements_eq, sync_requirements_eq,
    get_installed_packages_eq.
  split; [|split]; apply bind_spawned;
    try apply subprocess_run_spawned;
    try apply log_both_same_spawned.
  by intros a t.
Qed.

Lemma install_pip_tools_spawned (pf : Platform) (os : Children) (s : State) :
  spawned (after (install_pip_tools pf os) s)
  = spawned s ++ [pip_tools_request pf].
Proof.
  unfold after. rewrite install_pip_tools_eq.
  apply bind_spawned; [apply subprocess_run_spawned | by intros a t].
Qed.

Lemma shell_spawned_request
    (pf : Platform) (os : Children) (s : State) (p : string) :
  Str.blank (shell_entry s) = false →
  os_environ s !! "PATH" = Some p →
  spawned (after (run_shell_command pf os) s)
  = spawned s ++ [shell_request (shell_entry s) (child_env pf p s)].
Proof.
  intros Hb Hp. unfold after.
  rewrite (run_shell_command_prepared pf os s p Hb Hp).
  unfold shell_tail. apply bind_spawned.
  - by rewrite subprocess_run_spawned.
  - intros result. apply bind_along; [exact same_spawned_trans|..].
    + destruct (attribute_truthy _);
        [apply log_attribute_same_spawned | by intros t].
    + intros _. destruct (attribute_truthy _);
        [apply log_attribute_same_spawned | by intros t].
Qed.

Lemma run_shell_command_host_untouched
    (pf : Platform) (os : Children) (s : State) :
  host_untouched s (after (run_shell_command pf os) s).
Proof.
  apply run_shell_command_along; try by intros.
  unfold host_untouched. intros s1 s2 s3 [? ?] [? ?]. split; congruence.
Qed.

(** ** The Log Sink *)

(** C8. [log_to_terminal text] returns normally; afterwards the buffer is the
    prior buffer, unchanged, followed by [text] and exactly one line feed,
    the view is scrolled to the end of the buffer, and nothing else of the
    state has changed. *)
Theorem log_to_terminal_appends_and_scrolls (text : string) (s : State) :
  fst (log_to_terminal text s) = Ok tt
  ∧ buffer (after (log_to_terminal text) s) = buffer s +:+ (text +:+ LF)
  ∧ scrolled_to_end (after (log_to_terminal text) s)
  ∧ beside_log (after (log_to_terminal text) s) = beside_log s.
Proof.
  unfold after. rewrite log_to_terminal_eq. cbn [fst snd].
  repeat split.
Qed.

Example log_twice :
  buffer (after (log_to_terminal "a" >> log_to_terminal "b") (Sample.start ""))
  = "a" +:+ LF +:+ "b" +:+ LF.
Proof. reflexivity. Qed.

(** ** Shell commands *)

(** C3. When the text of the command entry is empty or made of whitespace
    only, [run_shell_command] returns normally, appends the single line
    ["No command entered."] to the log, and spawns no child: the list of
    requests, like everything else beside the log, is unchanged. *)
Theorem blank_command_logs_one_line
    (pf : Platform) (os : Children) (s : State) :
  Str.blank (shell_entry s) = true →
  fst (run_shell_command pf os s) = Ok tt
  ∧ buffer (after (run_shell_command pf os) s)
    = buffer s +:+ "No command entered." +:+ LF
  ∧ spawned (after (run_shell_command pf os) s) = spawned s
  ∧ beside_log (after (run_shell_command pf os) s) = beside_log s.
Proof.
  intros Hb. unfold after. rewrite (run_shell_command_blank pf os s Hb).
  repeat split.
Qed.

Lemma blank_command_logs_one_line_witness :
  Str.blank (shell_entry (Sample.start "  ")) = true
  ∧ buffer (after (run_shell_command Sample.linux Sample.chatty)
                  (Sample.start "  "))
    = "No command entered." +:+ LF
  ∧ spawned (after (run_shell_command Sample.linux Sample.chatty)
                   (Sample.start "  "))
    = [].
Proof.
  split; [reflexivity|].
  pose proof (blank_command_logs_one_line Sample.linux Sample.chatty
                (Sample.start "  ") eq_refl) as (_ & Hbuf & Hsp & _).
  split; [exact Hbuf | exact Hsp].
Defined.

(** C7. For a command that is not blank, on a host whose [PATH] is [p],
    [run_shell_command] makes exactly one request: the command line, run
    through the shell with its output captured, in an environment that is
    the host's except for [PATH], which is the environment's binary
    directory, then [os.pathsep], then [p]. *)
Theorem shell_child_path_prepended
    (pf : Platform) (os : Children) (s : State) (p : string) :
  Str.blank (shell_entry s) = false →
  os_environ s !! "PATH" = Some p →
  ∃ e : dict,
    spawned (after (run_shell_command pf os) s)
    = spawned s ++ [shell_request (shell_entry s) e]
    ∧ e !! "PATH"
      = Some (os_path_join pf VENV_NAME [bin_subdir pf]
              +:+ OsPath.pathsep (os_name pf) +:+ p)
    ∧ ∀ k, k ≠ "PATH" → e !! k = os_environ s !! k.
Proof.
  intros Hb Hp. exists (child_env pf p s). split; [|split].
  - by apply shell_spawned_request.
  - unfold child_env. by rewrite lookup_insert_eq.
  - intros k Hk. unfold child_env. by rewrite lookup_insert_ne.
Qed.

Lemma shell_child_path_prepended_witness :
  Str.blank (shell_entry (Sample.start "pip list")) = false
  ∧ os_environ (Sample.start "pip list") !! "PATH" = Some "/usr/bin"
  ∧ ∃ e : dict,
      spawned (after (run_shell_command Sample.linux Sample.chatty)
                     (Sample.start "pip list"))
      = [shell_request "pip list" e]
      ∧ e !! "PATH" = Some "venv_running/bin:/usr/bin".
Proof.
  split; [reflexivity|]. split; [reflexivity|].
  destruct (shell_child_path_prepended Sample.linux Sample.chatty
              (Sample.start "pip list") "/usr/bin" eq_refl eq_refl)
    as (e & Hs & He & _).
  exists e. split; [exact Hs | exact He].
Defined.

(** C10. [run_shell_command] leaves [os.environ] as it found it, whatever
    the command and however the call ends: the extended [PATH] is written
    to the copy only. Hence a second invocation, for any command typed in
    between, starts from and leaves the same host environment. *)
Theorem run_shell_command_keeps_environ
    (pf : Platform) (os : Children) (s : State) :
  os_environ (after (run_shell_command pf os) s) = os_environ s
  ∧ ∀ cmd' : string,
      let s' := type_command cmd' (after (run_shell_command pf os) s) in
      os_environ s' = os_environ s
      ∧ os_environ (after (run_shell_command pf os) s') = os_environ s.
Proof.
  assert (Hkeep : ∀ t, os_environ (after (run_shell_command pf os) t)
                       = os_environ t).
  { intros t. apply (run_shell_command_host_untouched pf os t). }
  split; [apply Hkeep|].
  intros cmd' s'. split.
  - subst s'. cbn [type_command os_environ]. apply Hkeep.
  - rewrite Hkeep. subst s'. cbn [type_command os_environ]. apply Hkeep.
Qed.

(** ** Paths into the environment *)

Lemma venv_program_posix (pf : Platform) (name : string) :
  os_name pf = posix →
  Str.starts_with_any ["/"%char] name = false →
  venv_program pf name = "venv_running/" +:+ bin_subdir pf +:+ "/" +:+ name.
Proof.
  intros Hn Hname. unfold venv_program, os_path_join, OsPath.join.
  rewrite Hn. unfold bin_subdir.
  destruct (String.eqb _ _); cbn; rewrite Hname; reflexivity.
Qed.

Lemma venv_program_nt (pf : Platform) (name : string) :
  os_name pf = nt →
  Str.starts_with_any ["\"%char; "/"%char] name = false →
  venv_program pf name = "venv_running\" +:+ bin_subdir pf +:+ "\" +:+ name.
Proof.
  intros Hn Hname. unfold venv_program, os_path_join, OsPath.join.
  rewrite Hn. unfold bin_subdir.
  destruct (String.eqb _ _); cbn; rewrite Hname; reflexivity.
Qed.

(** C4. On every host, when the environment-creation child runs to
    completion (with any exit code), [create_venv] returns the join of
    [VENV_NAME], the platform's binary subdirectory (["Scripts"] on Windows,
    ["bin"] elsewhere) and ["activate"]; the last component is the bare name
    ["activate"] under both flavours of [os.path]. *)
Theorem create_venv_returns_activate_path
    (pf : Platform) (os : Children) (s : State) (rc : Z) (out err : string) :
  os (spawned s) (venv_request pf) = Completed rc out err →
  fst (create_venv pf os s)
  = Ok (os_path_join pf VENV_NAME [bin_subdir pf; "activate"])
  ∧ (system pf = "Windows" → bin_subdir pf = "Scripts")
  ∧ (system pf ≠ "Windows" → bin_subdir pf = "bin")
  ∧ (os_name pf = posix →
     fst (create_venv pf os s)
     = Ok ("venv_running/" +:+ bin_subdir pf +:+ "/activate"))
  ∧ (os_name pf = nt →
     fst (create_venv pf os s)
     = Ok ("venv_running\" +:+ bin_subdir pf +:+ "\activate")).
Proof.
  intros Ho. rewrite (create_venv_completed pf os s rc out err Ho). cbn [fst].
  split; [reflexivity|].
  split; [apply bin_subdir_windows|].
  split; [apply bin_subdir_elsewhere|].
  split; intros Hn.
  - by rewrite (venv_program_posix pf "activate" Hn eq_refl).
  - by rewrite (venv_program_nt pf "activate" Hn eq_refl).
Qed.

Lemma create_venv_returns_activate_path_witness :
  Sample.chatty [] (venv_request Sample.windows)
  = Completed 0 ("out" +:+ LF) ("warn" +:+ LF)
  ∧ fst (create_venv Sample.windows Sample.chatty (Sample.start ""))
    = Ok "venv_running\Scripts\activate".
Proof.
  split; [reflexivity|].
  exact (proj1 (create_venv_returns_activate_path Sample.windows Sample.chatty
                  (Sample.start "") 0 ("out" +:+ LF) ("warn" +:+ LF) eq_refl)).
Defined.

Example create_venv_on_linux :
  fst (create_venv Sample.linux Sample.chatty (Sample.start ""))
  = Ok "venv_running/bin/activate".
Proof. reflexivity. Qed.

(** C1. Every operation that targets the isolated environment builds its
    path from [VENV_NAME] joined with the platform's binary subdirectory,
    which is ["Scripts"] when the host reports Windows and ["bin"]
    otherwise: the programs requested by [install_pip_tools],
    [compile_requirements], [sync_requirements] and
    [get_installed_packages], the activate path returned by [create_venv],
    and the [PATH] entry that [run_shell_command] puts in front. *)
Theorem venv_paths_use_platform_bin_subdir
    (pf : Platform) (os : Children) (s : State) :
  (system pf = "Windows" → bin_subdir pf = "Scripts")
  ∧ (system pf ≠ "Windows" → bin_subdir pf = "bin")
  ∧ (∀ name,
       venv_program pf name = os_path_join pf VENV_NAME [bin_subdir pf; name])
  ∧ spawned (after (install_pip_tools pf os) s)
    = spawned s
      ++ [plain_request [venv_program pf "pip"; "install"; "pip-tools==7.4.1"]]
  ∧ spawned (after (compile_requirements pf os) s)
    = spawned s
      ++ [captured_request [venv_program pf "pip-compile"; "requirements.in"]]
  ∧ spawned (after (sync_requirements pf os) s)
    = spawned s ++ [captured_request [venv_program pf "pip-sync"]]
  ∧ spawned (after (get_installed_packages pf os) s)
    = spawned s ++ [captured_request [venv_program pf "pip"; "list"]]
  ∧ (∀ rc out err,
       os (spawned s) (venv_request pf) = Completed rc out err →
       fst (create_venv pf os s) = Ok (venv_program pf "activate"))
  ∧ (∀ p,
       Str.blank (shell_entry s) = false →
       os_environ s !! "PATH" = Some p →
       ∃ e : dict,
         spawned (after (run_shell_command pf os) s)
         = spawned s ++ [shell_request (shell_entry s) e]
         ∧ e !! "PATH"
           = Some (os_path_join pf VENV_NAME [bin_subdir pf]
                   +:+ os_pathsep pf +:+ p)).
Proof.
  destruct (captured_spawned pf os s) as (Hc & Hs & Hl).
  split; [apply bin_subdir_windows|].
  split; [apply bin_subdir_elsewhere|].
  split; [reflexivity|].
  split; [apply install_pip_tools_spawned|].
  split; [exact Hc|]. split; [exact Hs|]. split; [exact Hl|].
  split.
  - intros rc out err Ho.
    by rewrite (create_venv_completed pf os s rc out err Ho).
  - intros p Hb Hp. exists (child_env pf p s). split.
    + by apply shell_spawned_request.
    + unfold child_env. by rewrite lookup_insert_eq.
Qed.

Lemma venv_paths_use_platform_bin_subdir_witness :
  spawned (after (sync_requirements Sample.windows Sample.chatty)
                 Sample.windows_start)
  = [captured_request ["venv_running\Scripts\pip-sync"]]
  ∧ fst (create_venv Sample.windows Sample.chatty Sample.windows_start)
    = Ok "venv_running\Scripts\activate"
  ∧ ∃ e : dict,
      spawned (after (run_shell_command Sample.windows Sample.chatty)
                     Sample.windows_start)
      = [shell_request "pip list" e]
      ∧ e !! "PATH" = Some "venv_running\Scripts;C:\Windows\system32".
Proof.
  destruct (venv_paths_use_platform_bin_subdir Sample.windows Sample.chatty
              Sample.windows_start)
    as (_ & _ & _ & _ & _ & Hs & _ & Hv & Hsh).
  split; [exact Hs|].
  split; [exact (Hv 0 ("out" +:+ LF) ("warn" +:+ LF) eq_refl)|].
  exact (Hsh "C:\Windows\system32" eq_refl eq_refl).
Defined.

(** ** Captured output in the log *)

Lemma buffer_logged (t : string) (s : State) :
  buffer (logged t s) = buffer s +:+ t +:+ LF.
Proof. reflexivity. Qed.

Lemma buffer_logged_if_any (t : string) (s : State) :
  buffer (logged_if_any t s) = buffer s +:+ line_if_any t.
Proof.
  unfold logged_if_any, line_if_any.
  destruct (Str.truthy t); [reflexivity | by rewrite str_app_nil_r].
Qed.

Lemma line_if_any_truthy (t : string) :
  Str.truthy t = true → line_if_any t = t +:+ LF.
Proof. unfold line_if_any. by intros ->. Qed.

Section CapturedBuffers.

Variable pf : Platform.
Variable os : Children.

Lemma compile_buffer_returned s rc outb errb out err :
  os (spawned s) (compile_request pf) = Completed rc outb errb →
  translate_newlines pf outb = Some out →
  translate_newlines pf errb = Some err →
  buffer (after (compile_requirements pf os) s)
  = buffer s +:+ out +:+ LF +:+ line_if_any err.
Proof.
  intros Ho Hout Herr. unfold after.
  rewrite (compile_requirements_returned pf os s rc outb errb out err
             Ho Hout Herr). cbn [snd].
  rewrite buffer_logged_if_any, buffer_logged.
  by rewrite !str_app_assoc.
Qed.

Lemma sync_buffer_returned s rc outb errb out err :
  os (spawned s) (sync_request pf) = Completed rc outb errb →
  translate_newlines pf outb = Some out →
  translate_newlines pf errb = Some err →
  buffer (after (sync_requirements pf os) s)
  = buffer s +:+ out +:+ LF +:+ line_if_any err.
Proof.
  intros Ho Hout Herr. unfold after.
  rewrite (sync_requirements_returned pf os s rc outb errb out err
             Ho Hout Herr). cbn [snd].
  rewrite buffer_logged_if_any, buffer_logged.
  by rewrite !str_app_assoc.
Qed.

Lemma shell_buffer_returned s p rc outb errb out err :
  Str.blank (shell_entry s) = false →
  os_environ s !! "PATH" = Some p →
  os (spawned s) (shell_request (shell_entry s) (child_env pf p s))
  = Completed rc outb errb →
  translate_newlines pf outb = Some out →
  translate_newlines pf errb = Some err →
  buffer (after (run_shell_command pf os) s)
  = buffer s +:+ "Executing in venv: " +:+ shell_entry s +:+ LF
    +:+ line_if_any out +:+ line_if_any err.
Proof.
  intros Hb Hp Ho Hout Herr. unfold after.
  rewrite (run_shell_command_returned pf os s p rc outb errb out err
             Hb Hp Ho Hout Herr).
  cbn [snd]. rewrite !buffer_logged_if_any.
  change (buffer (shell_spawned pf p s))
    with (buffer s +:+ ("Executing in venv: " +:+ shell_entry s) +:+ LF).
  by rewrite !str_app_assoc.
Qed.

End CapturedBuffers.

(** C2, as stated, fails: a child of [compile_requirements] that prints
    ["ok"] on its standard output and nothing on its standard error leaves
    the buffer ["ok\n"], which has no second line feed for the empty
    standard error to be followed by. *)
Lemma empty_stderr_leaves_no_line :
  Sample.clean [] (compile_request Sample.linux) = Completed 0 "ok" ""
  ∧ buffer (after (compile_requirements Sample.linux Sample.clean)
                  (Sample.start ""))
    = "ok" +:+ LF
  ∧ ¬ contains_in_order
        (buffer (after (compile_requirements Sample.linux Sample.clean)
                       (Sample.start "")))
        ("ok" +:+ LF) ("" +:+ LF).
Proof.
  split; [reflexivity|]. split; [reflexivity|].
  intros (pre & mid & post & H).
  change (buffer _) with ("ok" +:+ LF) in H.
  apply (f_equal String.length) in H.
  rewrite !str_length_app in H. cbn in H. lia.
Qed.

Example crlf_is_logged_as_lf :
  buffer (after (sync_requirements Sample.linux Sample.dos_failing)
                (Sample.start ""))
  = LF +:+ "boom" +:+ LF +:+ LF.
Proof. reflexivity. Qed.

Example undecodable_output_is_not_logged :
  raises (sync_requirements Sample.linux Sample.garbled) (Sample.start "")
    (UnicodeDecodeError Sample.byte_ff)
  ∧ buffer (after (sync_requirements Sample.linux Sample.garbled)
                  (Sample.start "")) = "".
Proof. split; reflexivity. Qed.

(** C2, amended. When [subprocess.run] returns the captured standard
    output [out] and standard error [err] as text (the child has run to
    completion and each stream has been decoded, CR LF and CR turned into
    LF), the buffer after [compile_requirements] or [sync_requirements] is
    the prior buffer, then [out] and a line feed, then [err] and a line feed
    if [err] is not empty, and nothing for it otherwise. For
    [run_shell_command], on a command that is not blank, the buffer is the
    prior buffer, the line announcing the command, then each of the two
    strings followed by a line feed, [out] first, an empty string being
    skipped. In all three, when both strings are non-empty the buffer
    contains both, in that order, each followed by a line feed. *)
Theorem captured_streams_reach_log
    (pf : Platform) (os : Children) (s : State)
    (rc : Z) (outb errb out err : string) :
  translate_newlines pf outb = Some out →
  translate_newlines pf errb = Some err →
  (os (spawned s) (compile_request pf) = Completed rc outb errb →
   buffer (after (compile_requirements pf os) s)
   = buffer s +:+ out +:+ LF +:+ line_if_any err
   ∧ (Str.truthy err = true →
      contains_in_order (buffer (after (compile_requirements pf os) s))
        (out +:+ LF) (err +:+ LF)))
  ∧ (os (spawned s) (sync_request pf) = Completed rc outb errb →
     buffer (after (sync_requirements pf os) s)
     = buffer s +:+ out +:+ LF +:+ line_if_any err
     ∧ (Str.truthy err = true →
        contains_in_order (buffer (after (sync_requirements pf os) s))
          (out +:+ LF) (err +:+ LF)))
  ∧ (∀ p,
       Str.blank (shell_entry s) = false →
       os_environ s !! "PATH" = Some p →
       os (spawned s) (shell_request (shell_entry s) (child_env pf p s))
       = Completed rc outb errb →
       buffer (after (run_shell_command pf os) s)
       = buffer s +:+ "Executing in venv: " +:+ shell_entry s +:+ LF
         +:+ line_if_any out +:+ line_if_any err
       ∧ (Str.truthy out = true → Str.truthy err = true →
          contains_in_order (buffer (after (run_shell_command pf os) s))
            (out +:+ LF) (err +:+ LF))).
Proof.
  intros Hout Herr. split; [|split].
  - intros Ho.
    rewrite (compile_buffer_returned pf os s rc outb errb out err Ho Hout Herr).
    split; [reflexivity|]. intros He. rewrite (line_if_any_truthy err He).
    exists (buffer s), "", "". by rewrite str_app_nil_r, !str_app_assoc.
  - intros Ho.
    rewrite (sync_buffer_returned pf os s rc outb errb out err Ho Hout Herr).
    split; [reflexivity|]. intros He. rewrite (line_if_any_truthy err He).
    exists (buffer s), "", "". by rewrite str_app_nil_r, !str_app_assoc.
  - intros p Hb Hp Ho.
    rewrite (shell_buffer_returned pf os s p rc outb errb out err
               Hb Hp Ho Hout Herr).
    split; [reflexivity|]. intros Ho' He.
    rewrite (line_if_any_truthy out Ho'), (line_if_any_truthy err He).
    exists (buffer s +:+ "Executing in venv: " +:+ shell_entry s +:+ LF), "", "".
    by rewrite str_app_nil_r, !str_app_assoc.
Qed.

Lemma captured_streams_reach_log_witness :
  translate_newlines Sample.linux ("out" +:+ LF) = Some ("out" +:+ LF)
  ∧ translate_newlines Sample.linux ("warn" +:+ String "013"%char LF)
    = Some ("warn" +:+ LF)
  ∧ Str.blank (shell_entry (Sample.start "pip list")) = false
  ∧ os_environ (Sample.start "pip list") !! "PATH" = Some "/usr/bin"
  ∧ buffer (after (compile_requirements Sample.linux
                     (λ _ _, Completed 0 ("out" +:+ LF)
                               ("warn" +:+ String "013"%char LF)))
                  (Sample.start "pip list"))
    = "out" +:+ LF +:+ LF +:+ "warn" +:+ LF +:+ LF
  ∧ buffer (after (run_shell_command Sample.linux
                     (λ _ _, Completed 0 ("out" +:+ LF)
                               ("warn" +:+ String "013"%char LF)))
                  (Sample.start "pip list"))
    = "Executing in venv: pip list" +:+ LF
      +:+ "out" +:+ LF +:+ LF +:+ "warn" +:+ LF +:+ LF.
Proof.
  split; [reflexivity|]. split; [reflexivity|].
  split; [reflexivity|]. split; [reflexivity|].
  destruct (captured_streams_reach_log Sample.linux
              (λ _ _, Completed 0 ("out" +:+ LF)
                        ("warn" +:+ String "013"%char LF))
              (Sample.start "pip list") 0 ("out" +:+ LF)
              ("warn" +:+ String "013"%char LF) ("out" +:+ LF) ("warn" +:+ LF)
              eq_refl eq_refl)
    as (Hc & _ & Hsh).
  split.
  - exact (proj1 (Hc eq_refl)).
  - exact (proj1 (Hsh "/usr/bin" eq_refl eq_refl eq_refl)).
Defined.

(** ** Failures of child processes *)

(** C5, as stated, fails: on a host where the environment was never
    created, the program [venv_running/bin/pip-compile] does not exist;
    [compile_requirements] then does not return but raises
    [FileNotFoundError], and the buffer is left exactly as it was, so the
    failure is not in the Log Sink. *)
Lemma missing_executable_raises_unlogged :
  Sample.no_venv [] (compile_request Sample.linux)
  = NotStarted (FileNotFoundError "venv_running/bin/pip-compile")
  ∧ raises (compile_requirements Sample.linux Sample.no_venv) (Sample.start "")
      (FileNotFoundError "venv_running/bin/pip-compile")
  ∧ ¬ returns (compile_requirements Sample.linux Sample.no_venv)
        (Sample.start "")
  ∧ buffer (after (compile_requirements Sample.linux Sample.no_venv)
                  (Sample.start ""))
    = buffer (Sample.start "").
Proof.
  split; [reflexivity|]. split; [reflexivity|]. split; [|reflexivity].
  intros [u Hu]. discriminate Hu.
Qed.

Example missing_program_in_shell_is_logged :
  fst (run_shell_command Sample.linux Sample.no_venv (Sample.start "pip-compile"))
  = Ok tt
  ∧ buffer (after (run_shell_command Sample.linux Sample.no_venv)
                  (Sample.start "pip-compile"))
    = "Executing in venv: pip-compile" +:+ LF
      +:+ "/bin/sh: 1: pip-compile: not found" +:+ LF +:+ LF.
Proof. split; reflexivity. Qed.

(** *** The callback wrapper of Tk *)

Lemma call_wrapper_ok (pf : Platform) (command : M unit) (s : State) :
  fst (call_wrapper pf command s) = Ok tt.
Proof. unfold call_wrapper. by destruct (command s) as [[[]|e] s']. Qed.

Lemma call_wrapper_returned (pf : Platform) (command : M unit)
    (s s' : State) (u : unit) :
  command s = (Ok u, s') → call_wrapper pf command s = (Ok u, s').
Proof. intros H. unfold call_wrapper. by rewrite H. Qed.

Lemma call_wrapper_raised (pf : Platform) (command : M unit)
    (s s' : State) (e : PyExn) :
  command s = (Raise e, s') →
  call_wrapper pf command s
  = (Ok tt, with_console (console s' ++ [format_report pf tk_callback e]) s').
Proof. intros H. unfold call_wrapper. by rewrite H. Qed.

Example nul_byte_command_is_refused :
  raises (run_shell_command Sample.linux
            (λ _ _, NotStarted (ValueError "embedded null byte")))
         (Sample.start (String "000"%char "ls"))
         (ValueError "embedded null byte")
  ∧ console (after (shell_btn_invoke Sample.linux
                      (λ _ _, NotStarted (ValueError "embedded null byte")))
                   (Sample.start (String "000"%char "ls")))
    = ["Exception in Tkinter callback" +:+ LF
       +:+ "Traceback (most recent call last):" +:+ LF].
Proof. split; reflexivity. Qed.

(** C5, amended. No operation is fatal to the host process: an exception
    that leaves an action is caught by Tk's callback wrapper, which prints
    it on standard error and returns to the main loop, so every press of a
    button returns normally. A failure surfaces as text in the Log Sink
    when [subprocess.run] returns: a child that has run to completion and
    whose output has been decoded, whatever its exit code, never makes
    [compile_requirements], [sync_requirements] or [run_shell_command]
    raise, and what it wrote is appended to the log like any other output.
    When [subprocess.run] raises because the child could not be started (a
    missing executable, a command it refuses), the exception leaves the
    operation, nothing about it is appended to the Log Sink, and the
    failure surfaces as the report on standard error instead. The same
    holds on a POSIX host when the child has run but its output cannot be
    decoded: [subprocess.run] raises [UnicodeDecodeError] and nothing of
    the output is logged. *)
Theorem child_failures_logged_or_raised
    (pf : Platform) (os : Children) (s : State) :
  (fst (create_btn_invoke pf os s) = Ok tt
   ∧ fst (status_btn_invoke pf os s) = Ok tt
   ∧ fst (compile_btn_invoke pf os s) = Ok tt
   ∧ fst (sync_btn_invoke pf os s) = Ok tt
   ∧ fst (shell_btn_invoke pf os s) = Ok tt)
  ∧ (∀ rc outb errb out err,
       translate_newlines pf outb = Some out →
       translate_newlines pf errb = Some err →
       (os (spawned s) (compile_request pf) = Completed rc outb errb →
        fst (compile_requirements pf os s) = Ok tt
        ∧ buffer (after (compile_requirements pf os) s)
          = buffer s +:+ out +:+ LF +:+ line_if_any err)
       ∧ (os (spawned s) (sync_request pf) = Completed rc outb errb →
          fst (sync_requirements pf os s) = Ok tt
          ∧ buffer (after (sync_requirements pf os) s)
            = buffer s +:+ out +:+ LF +:+ line_if_any err)
       ∧ (∀ p,
            Str.blank (shell_entry s) = false →
            os_environ s !! "PATH" = Some p →
            os (spawned s) (shell_request (shell_entry s) (child_env pf p s))
            = Completed rc outb errb →
            fst (run_shell_command pf os s) = Ok tt
            ∧ buffer (after (run_shell_command pf os) s)
              = buffer s +:+ "Executing in venv: " +:+ shell_entry s +:+ LF
                +:+ line_if_any out +:+ line_if_any err))
  ∧ (∀ e,
       (os (spawned s) (compile_request pf) = NotStarted e →
        raises (compile_requirements pf os) s e
        ∧ buffer (after (compile_requirements pf os) s) = buffer s
        ∧ buffer (after (compile_btn_invoke pf os) s)
          = buffer s +:+ "Running pip-compile..." +:+ LF
        ∧ console (after (compile_btn_invoke pf os) s)
          = console s ++ [format_report pf tk_callback e])
       ∧ (os (spawned s) (sync_request pf) = NotStarted e →
          raises (sync_requirements pf os) s e
          ∧ buffer (after (sync_requirements pf os) s) = buffer s
          ∧ buffer (after (sync_btn_invoke pf os) s)
            = buffer s +:+ "Running pip-sync..." +:+ LF
          ∧ console (after (sync_btn_invoke pf os) s)
            = console s ++ [format_report pf tk_callback e])
       ∧ (∀ p,
            Str.blank (shell_entry s) = false →
            os_environ s !! "PATH" = Some p →
            os (spawned s) (shell_request (shell_entry s) (child_env pf p s))
            = NotStarted e →
            raises (run_shell_command pf os) s e
            ∧ buffer (after (shell_btn_invoke pf os) s)
              = buffer s +:+ "Executing in venv: " +:+ shell_entry s +:+ LF
            ∧ console (after (shell_btn_invoke pf os) s)
              = console s ++ [format_report pf tk_callback e]))
  ∧ (∀ rc outb errb bad,
       os_name pf = posix →
       first_undecodable pf outb errb = Some bad →
       (os (spawned s) (compile_request pf) = Completed rc outb errb →
        raises (compile_requirements pf os) s (UnicodeDecodeError bad)
        ∧ buffer (after (compile_requirements pf os) s) = buffer s)
       ∧ (os (spawned s) (sync_request pf) = Completed rc outb errb →
          raises (sync_requirements pf os) s (UnicodeDecodeError bad)
          ∧ buffer (after (sync_requirements pf os) s) = buffer s)
       ∧ (∀ p,
            Str.blank (shell_entry s) = false →
            os_environ s !! "PATH" = Some p →
            os (spawned s) (shell_request (shell_entry s) (child_env pf p s))
            = Completed rc outb errb →
            raises (run_shell_command pf os) s (UnicodeDecodeError bad)
            ∧ buffer (after (run_shell_command pf os) s)
              = buffer s +:+ "Executing in venv: " +:+ shell_entry s
                +:+ LF)).
Proof.
  split; [|split; [|split]]; cycle 3.
  { intros rc outb errb bad Hn Hbad. unfold raises, after.
    split; [|split].
    - intros Ho.
      by rewrite (compile_requirements_undecodable pf os s rc outb errb bad
                    Hn Ho Hbad).
    - intros Ho.
      by rewrite (sync_requirements_undecodable pf os s rc outb errb bad
                    Hn Ho Hbad).
    - intros p Hb Hp Ho.
      rewrite (run_shell_command_undecodable pf os s p rc outb errb bad
                 Hn Hb Hp Ho Hbad).
      split; [reflexivity|]. cbn [snd].
      change (buffer (shell_spawned pf p s))
        with (buffer s +:+ ("Executing in venv: " +:+ shell_entry s) +:+ LF).
      by rewrite !str_app_assoc. }
  - repeat split; apply call_wrapper_ok.
  - intros rc outb errb out err Hout Herr. split; [|split].
    + intros Ho. split.
      * by rewrite (compile_requirements_returned pf os s rc outb errb out err
                      Ho Hout Herr).
      * by apply compile_buffer_returned with rc outb errb.
    + intros Ho. split.
      * by rewrite (sync_requirements_returned pf os s rc outb errb out err
                      Ho Hout Herr).
      * by apply sync_buffer_returned with rc outb errb.
    + intros p Hb Hp Ho. split.
      * by rewrite (run_shell_command_returned pf os s p rc outb errb out err
                      Hb Hp Ho Hout Herr).
      * by apply shell_buffer_returned with p rc outb errb.
  - intros e. split; [|split].
    + intros Ho. unfold raises, after, compile_btn_invoke.
      rewrite (compile_requirements_not_started pf os s e Ho).
      rewrite (call_wrapper_raised pf _ s _ e
                 (compile_requirements_not_started pf os
                    (logged "Running pip-compile..." s) e Ho)).
      by repeat split.
    + intros Ho. unfold raises, after, sync_btn_invoke.
      rewrite (sync_requirements_not_started pf os s e Ho).
      rewrite (call_wrapper_raised pf _ s _ e
                 (sync_requirements_not_started pf os
                    (logged "Running pip-sync..." s) e Ho)).
      by repeat split.
    + intros p Hb Hp Ho. unfold raises, after, shell_btn_invoke.
      rewrite (call_wrapper_raised pf _ s _ e
                 (run_shell_command_not_started pf os s p e Hb Hp Ho)).
      rewrite (run_shell_command_not_started pf os s p e Hb Hp Ho).
      split; [reflexivity|]. split; [|reflexivity]. cbn [snd].
      change (buffer (with_console _ ?t)) with (buffer t).
      change (buffer (shell_spawned pf p s))
        with (buffer s +:+ ("Executing in venv: " +:+ shell_entry s) +:+ LF).
      by rewrite !str_app_assoc.
Qed.

Lemma child_failures_logged_or_raised_witness :
  translate_newlines Sample.linux "" = Some ""
  ∧ translate_newlines Sample.linux ("boom" +:+ LF) = Some ("boom" +:+ LF)
  ∧ Sample.failing [] (sync_request Sample.linux)
    = Completed 1 "" ("boom" +:+ LF)
  ∧ fst (sync_requirements Sample.linux Sample.failing (Sample.start "")) = Ok tt
  ∧ buffer (after (sync_requirements Sample.linux Sample.failing)
                  (Sample.start ""))
    = LF +:+ "boom" +:+ LF +:+ LF
  ∧ Sample.no_venv [] (sync_request Sample.linux)
    = NotStarted (FileNotFoundError "venv_running/bin/pip-sync")
  ∧ raises (sync_requirements Sample.linux Sample.no_venv) (Sample.start "")
      (FileNotFoundError "venv_running/bin/pip-sync")
  ∧ console (after (sync_btn_invoke Sample.linux Sample.no_venv)
                   (Sample.start ""))
    = ["Exception in Tkinter callback" +:+ LF
       +:+ "Traceback (most recent call last):" +:+ LF]
  ∧ os_name Sample.linux = posix
  ∧ first_undecodable Sample.linux Sample.byte_ff "" = Some Sample.byte_ff
  ∧ Sample.garbled [] (sync_request Sample.linux)
    = Completed 0 Sample.byte_ff ""
  ∧ raises (sync_requirements Sample.linux Sample.garbled) (Sample.start "")
      (UnicodeDecodeError Sample.byte_ff).
Proof.
  destruct (child_failures_logged_or_raised Sample.linux Sample.garbled
              (Sample.start "")) as (_ & _ & _ & Hbad).
  destruct (Hbad 0 Sample.byte_ff "" Sample.byte_ff eq_refl eq_refl)
    as (_ & Hg & _).
  destruct (child_failures_logged_or_raised Sample.linux Sample.failing
              (Sample.start "")) as (_ & Hr & _).
  destruct (Hr 1 "" ("boom" +:+ LF) "" ("boom" +:+ LF) eq_refl eq_refl)
    as (_ & Hs & _).
  destruct (child_failures_logged_or_raised Sample.linux Sample.no_venv
              (Sample.start "")) as (_ & _ & Hn & _).
  destruct (Hn (FileNotFoundError "venv_running/bin/pip-sync"))
    as (_ & Hns & _).
  split; [reflexivity|]. split; [reflexivity|]. split; [reflexivity|].
  split; [exact (proj1 (Hs eq_refl))|].
  split; [exact (proj2 (Hs eq_refl))|].
  split; [reflexivity|].
  split; [exact (proj1 (Hns eq_refl))|].
  split; [exact (proj2 (proj2 (proj2 (Hns eq_refl))))|].
  split; [reflexivity|]. split; [reflexivity|]. split; [reflexivity|].
  exact (proj1 (Hg eq_refl)).
Defined.

(** ** Exit codes *)

Lemma alike_eq {A} (x y : Result A * State) : alike eq x y → x = y.
Proof.
  destruct x as [[a|e] s], y as [[b|e'] s']; intros [Hs Hr];
    cbn in *; subst; done.
Qed.

Lemma alike_same {A} (x : Result A * State) : alike eq x x.
Proof. split; [done|]. by destruct (fst x). Qed.

Lemma alike_bind {A B} (Q : A → A → Prop) (Q' : B → B → Prop)
    (c c' : M A) (k k' : A → M B) (s : State) :
  alike Q (c s) (c' s) →
  (∀ a b t, Q a b → alike Q' (k a t) (k' b t)) →
  alike Q' (bind c k s) (bind c' k' s).
Proof.
  intros [Hs Hr] Hk. unfold bind.
  destruct (c s) as [[a|e] s1], (c' s) as [[b|e'] s2];
    cbn in *; subst; try done.
  by apply Hk.
Qed.

Section ExitCodes.

Variable pf : Platform.
Variables os os' : Children.
Hypothesis Hcodes : same_but_codes os os'.

Lemma subprocess_run_codes (inv : Invocation) (s : State) :
  alike same_streams (subprocess_run pf os inv s) (subprocess_run pf os' inv s).
Proof.
  unfold subprocess_run. specialize (Hcodes (spawned s) inv).
  destruct (os (spawned s) inv) as [rc out err|e],
    (os' (spawned s) inv) as [rc' out' err'|e']; try done.
  - destruct Hcodes as [-> ->].
    destruct (capture_output inv); [|by split].
    destruct (text inv); [|by split].
    unfold bind, ret.
    destruct (communicate_text pf out' err' _) as [[streams|e] t];
      by split.
Qed.

Lemma run_argv_codes {B} (argv : list string) (k k' : M B) (s : State) :
  (∀ t, alike eq (k t) (k' t)) →
  alike eq ((run_argv pf os argv >> k) s) ((run_argv pf os' argv >> k') s).
Proof.
  intros Hk. apply (alike_bind same_streams eq).
  - apply subprocess_run_codes.
  - intros a b t _. apply Hk.
Qed.

Lemma log_both_codes (a b : CompletedProcess) (t : State) :
  same_streams a b → alike eq (log_both a t) (log_both b t).
Proof. intros [Ho He]. unfold log_both. rewrite Ho, He. apply alike_same. Qed.

Lemma compile_requirements_codes s :
  compile_requirements pf os s = compile_requirements pf os' s.
Proof.
  rewrite !compile_requirements_eq. apply alike_eq.
  apply (alike_bind same_streams eq);
    [apply subprocess_run_codes | intros a b t; apply log_both_codes].
Qed.

Lemma sync_requirements_codes s :
  sync_requirements pf os s = sync_requirements pf os' s.
Proof.
  rewrite !sync_requirements_eq. apply alike_eq.
  apply (alike_bind same_streams eq);
    [apply subprocess_run_codes | intros a b t; apply log_both_codes].
Qed.

Lemma get_installed_packages_codes s :
  get_installed_packages pf os s = get_installed_packages pf os' s.
Proof.
  rewrite !get_installed_packages_eq. apply alike_eq.
  apply (alike_bind same_streams eq); [apply subprocess_run_codes|].
  intros a b t [Ho _]. rewrite Ho. apply alike_same.
Qed.

Lemma create_venv_codes s : create_venv pf os s = create_venv pf os' s.
Proof.
  rewrite !create_venv_eq. apply alike_eq.
  apply (alike_bind same_streams eq); [apply subprocess_run_codes|].
  intros a b t _. apply alike_same.
Qed.

Lemma install_pip_tools_codes s :
  install_pip_tools pf os s = install_pip_tools pf os' s.
Proof.
  rewrite !install_pip_tools_eq. apply alike_eq.
  apply (alike_bind same_streams eq); [apply subprocess_run_codes|].
  intros a b t _. apply alike_same.
Qed.

Lemma install_os_dependencies_eq s :
  install_os_dependencies pf os s
  = os_packages pf os (logged (detected_os_line pf) s).
Proof. reflexivity. Qed.

Lemma os_packages_codes s : os_packages pf os s = os_packages pf os' s.
Proof.
  apply alike_eq. unfold os_packages.
  destruct (String.eqb (system pf) "Linux").
  { apply run_argv_codes. intros t.
    apply run_argv_codes. intros u. apply alike_same. }
  destruct (String.eqb (system pf) "Darwin").
  { apply run_argv_codes. intros t. apply alike_same. }
  apply alike_same.
Qed.

Lemma alike_of_eq {A} (x y : Result A * State) : x = y → alike eq x y.
Proof. intros ->. apply alike_same. Qed.

Lemma on_create_venv_eq s :
  on_create_venv pf os s =
  (install_os_dependencies pf os >>
   log_to_terminal "Creating virtual environment..." >>
   let* activate_script := create_venv pf os in
   log_to_terminal ("Virtual environment created at " +:+ activate_script) >>
   log_to_terminal "Installing pip-tools..." >>
   install_pip_tools pf os >>
   log_to_terminal "pip-tools installed." >>
   tab_control_select terminal_tab)
    (logged "Checking OS dependencies..." s).
Proof. reflexivity. Qed.

End ExitCodes.

Section ExitCodesOfActions.

Variable pf : Platform.
Variables os os' : Children.
Hypothesis Hcodes : same_but_codes os os'.

Lemma on_compile_codes s : on_compile pf os s = on_compile pf os' s.
Proof. rewrite !on_compile_eq. by apply compile_requirements_codes. Qed.

Lemma on_sync_codes s : on_sync pf os s = on_sync pf os' s.
Proof. rewrite !on_sync_eq. by apply sync_requirements_codes. Qed.

Lemma on_status_codes s : on_status pf os s = on_status pf os' s.
Proof.
  unfold on_status, bind.
  by rewrite (get_installed_packages_codes pf os os' Hcodes s).
Qed.

Lemma on_create_venv_codes s :
  on_create_venv pf os s = on_create_venv pf os' s.
Proof.
  rewrite !on_create_venv_eq. apply alike_eq.
  apply (alike_bind eq eq).
  { apply alike_of_eq. rewrite !install_os_dependencies_eq.
    by apply os_packages_codes. }
  intros ? ? t <-.
  apply (alike_bind eq eq); [apply alike_same|]. intros ? ? t1 <-.
  apply (alike_bind eq eq).
  { apply alike_of_eq. by apply create_venv_codes. }
  intros activate_script ? t2 <-.
  apply (alike_bind eq eq); [apply alike_same|]. intros ? ? t3 <-.
  apply (alike_bind eq eq); [apply alike_same|]. intros ? ? t4 <-.
  apply (alike_bind eq eq).
  { apply alike_of_eq. by apply install_pip_tools_codes. }
  intros ? ? t5 <-. apply alike_same.
Qed.

Lemma run_shell_command_codes s :
  run_shell_command pf os s = run_shell_command pf os' s.
Proof.
  destruct (Str.blank (shell_entry s)) eqn:Hb.
  { by rewrite !(run_shell_command_blank pf _ s Hb). }
  destruct (os_environ s !! "PATH") as [p|] eqn:Hp.
  2: { by rewrite !(run_shell_command_no_path pf _ s Hb Hp). }
  rewrite !(run_shell_command_prepared pf _ s p Hb Hp).
  apply alike_eq. unfold shell_tail.
  apply (alike_bind same_streams eq); [by apply subprocess_run_codes|].
  intros a b t [Ho He]. rewrite Ho, He. apply alike_same.
Qed.

End ExitCodesOfActions.

Lemma subprocess_run_uncaptured (pf : Platform) (os : Children)
    (inv : Invocation) (s : State) (rc : Z) (out err : string) :
  capture_output inv = false →
  os (spawned s) inv = Completed rc out err →
  buffer (after (subprocess_run pf os inv) s) = buffer s
  ∧ console (after (subprocess_run pf os inv) s) = console s ++ [out; err].
Proof.
  intros Hc Ho. unfold after.
  by rewrite (subprocess_run_inherited pf os inv s rc out err Hc Ho).
Qed.


Example uncaptured_stderr_goes_to_console :
  buffer (after (install_pip_tools Sample.linux Sample.failing)
                (Sample.start "")) = ""
  ∧ console (after (install_pip_tools Sample.linux Sample.failing)
                   (Sample.start ""))
    = [""; "boom" +:+ LF].
Proof. split; reflexivity. Qed.



(** ** Feedback surfaces *)

Lemma uncaptured_run_same (s s' : State) :
  dialogs s' = dialogs s → spawned s' = spawned s → uncaptured_run s s'.
Proof. intros Hd Hs. split; [done|]. exists []. by rewrite app_nil_r. Qed.

Lemma uncaptured_run_refl (s : State) : uncaptured_run s s.
Proof. by apply uncaptured_run_same. Qed.

Lemma uncaptured_run_trans (s1 s2 s3 : State) :
  uncaptured_run s1 s2 → uncaptured_run s2 s3 → uncaptured_run s1 s3.
Proof.
  intros (Hd1 & l1 & Hs1 & Hl1) (Hd2 & l2 & Hs2 & Hl2).
  split; [congruence|]. exists (l1 ++ l2). split.
  - by rewrite Hs2, Hs1, app_assoc.
  - by apply Forall_app.
Qed.

Lemma uncaptured_run_plain (argv : list string) (s : State) :
  uncaptured_run s (requested (plain_request argv) s).
Proof.
  split; [done|]. exists [plain_request argv]. split; [done|].
  by repeat constructor.
Qed.

Lemma on_create_venv_uncaptured (pf : Platform) (os : Children) (s : State) :
  uncaptured_run s (after (on_create_venv pf os) s).
Proof.
  apply on_create_venv_along;
    try exact uncaptured_run_refl; try exact uncaptured_run_trans;
    try exact uncaptured_run_plain;
    intros; by apply uncaptured_run_same.
Qed.

Lemma on_create_venv_opened (pf : Platform) (os : Children) (s : State) :
  on_create_venv pf os s
  = create_venv_rest pf os
      (logged (detected_os_line pf) (logged "Checking OS dependencies..." s)).
Proof. reflexivity. Qed.

Lemma log_extended_same (s s' : State) :
  buffer s' = buffer s → log_extended s s'.
Proof. intros H. exists "". by rewrite str_app_nil_r. Qed.

Lemma log_extended_trans (s1 s2 s3 : State) :
  log_extended s1 s2 → log_extended s2 s3 → log_extended s1 s3.
Proof.
  intros [t1 H1] [t2 H2]. exists (t1 +:+ t2).
  by rewrite H2, H1, str_app_assoc.
Qed.

Lemma log_extended_logged (t : string) (s : State) :
  log_extended s (logged t s).
Proof. by exists (t +:+ LF). Qed.

Lemma on_create_venv_opens_log (pf : Platform) (os : Children) (s : State) :
  ∃ t, buffer (after (on_create_venv pf os) s)
       = buffer s +:+ create_venv_opening pf +:+ t.
Proof.
  unfold after. rewrite on_create_venv_opened.
  destruct (create_venv_rest_along log_extended) with
    (pf := pf) (os := os)
    (s := logged (detected_os_line pf)
            (logged "Checking OS dependencies..." s)) as [t Ht];
    try exact log_extended_trans; try exact log_extended_logged;
    try (intros; by apply log_extended_same).
  exists t. unfold after in Ht. rewrite Ht, !buffer_logged.
  unfold create_venv_opening. by rewrite !str_app_assoc.
Qed.

Lemma on_status_keeps_buffer (pf : Platform) (os : Children) (s : State) :
  buffer (after (on_status pf os) s) = buffer s.
Proof.
  apply (on_status_along (λ s s', buffer s' = buffer s));
    try done; intros; congruence.
Qed.

Section Wrapped.

Variable pf : Platform.
Variable command : M unit.
Variable s : State.

Lemma call_wrapper_buffer :
  buffer (after (call_wrapper pf command) s) = buffer (after command s).
Proof.
  unfold after, call_wrapper. by destruct (command s) as [[u|e] s'].
Qed.

Lemma call_wrapper_dialogs :
  dialogs (after (call_wrapper pf command) s) = dialogs (after command s).
Proof.
  unfold after, call_wrapper. by destruct (command s) as [[u|e] s'].
Qed.

Lemma call_wrapper_spawned :
  spawned (after (call_wrapper pf command) s) = spawned (after command s).
Proof.
  unfold after, call_wrapper. by destruct (command s) as [[u|e] s'].
Qed.

End Wrapped.


Example create_venv_children_write_to_console :
  console (after (on_create_venv Sample.windows Sample.chatty)
                 Sample.windows_start)
  = ["out" +:+ LF; "warn" +:+ LF; "out" +:+ LF; "warn" +:+ LF]
  ∧ selected (after (on_create_venv Sample.windows Sample.chatty)
                    Sample.windows_start)
    = terminal_tab.
Proof. split; reflexivity. Qed.

Lemma on_create_venv_completed (pf : Platform) (os : Children)
    (s s1 : State) (rc1 rc2 : Z) (o1 e1 o2 e2 : string) :
  install_os_dependencies pf os (logged "Checking OS dependencies..." s)
  = (Ok tt, s1) →
  os (spawned s1) (venv_request pf) = Completed rc1 o1 e1 →
  os (spawned s1 ++ [venv_request pf]) (pip_tools_request pf)
  = Completed rc2 o2 e2 →
  on_create_venv pf os s =
  (Ok tt,
   with_selected terminal_tab
     (logged "pip-tools installed."
        (with_console (console s1 ++ [o1; e1] ++ [o2; e2])
           (requested (pip_tools_request pf)
              (logged "Installing pip-tools..."
                 (logged ("Virtual environment created at "
                          +:+ venv_program pf "activate")
                    (with_console (console s1 ++ [o1; e1])
                       (requested (venv_request pf)
                          (logged "Creating virtual environment..."
                             s1))))))))).
Proof.
  intros H0 H1 H2.
  rewrite on_create_venv_eq. unfold bind at 1. rewrite H0.
  unfold bind. rewrite !log_to_terminal_eq.
  rewrite (create_venv_completed pf os
             (logged "Creating virtual environment..." s1) rc1 o1 e1 H1).
  rewrite !log_to_terminal_eq.
  rewrite (install_pip_tools_completed pf os
             (logged "Installing pip-tools..."
                (logged ("Virtual environment created at "
                         +:+ venv_program pf "activate")
                   (with_console _
                      (requested (venv_request pf)
                         (logged "Creating virtual environment..." s1)))))
             rc2 o2 e2 H2).
  rewrite !log_to_terminal_eq.
  unfold tab_control_select, modify. cbn [console with_console logged
    with_terminal_output requested with_spawned].
  by rewrite <- app_assoc.
Qed.



(** * The remaining functions *)

(** ** The log only grows, and the view follows it *)

(** X1. The Log Buffer is append-only: whichever of the five actions runs,
    on whatever host and however it ends, the buffer afterwards is the
    buffer before followed by some text. Nothing is ever removed from or
    rewritten in the log. *)
Theorem log_buffer_is_append_only
    (pf : Platform) (os : Children) (s : State) :
  log_extended s (after (on_create_venv pf os) s)
  ∧ log_extended s (after (on_status pf os) s)
  ∧ log_extended s (after (on_compile pf os) s)
  ∧ log_extended s (after (on_sync pf os) s)
  ∧ log_extended s (after (run_shell_command pf os) s).
Proof.
  assert (Hrefl : ∀ t, log_extended t t) by (intros t; by apply log_extended_same).
  split; [|split; [|split; [|split]]].
  - apply on_create_venv_along;
      try exact Hrefl; try exact log_extended_trans;
      try exact log_extended_logged; intros; by apply log_extended_same.
  - apply on_status_along;
      try exact Hrefl; try exact log_extended_trans;
      try exact log_extended_logged; intros; by apply log_extended_same.
  - apply on_compile_along;
      try exact Hrefl; try exact log_extended_trans;
      try exact log_extended_logged; intros; by apply log_extended_same.
  - apply on_sync_along;
      try exact Hrefl; try exact log_extended_trans;
      try exact log_extended_logged; intros; by apply log_extended_same.
  - apply run_shell_command_along;
      try exact Hrefl; try exact log_extended_trans;
      try exact log_extended_logged; intros; by apply log_extended_same.
Qed.

Lemma view_follows_trans (s1 s2 s3 : State) :
  view_follows s1 s2 → view_follows s2 s3 → view_follows s1 s3.
Proof.
  unfold view_follows, scrolled_to_end.
  intros [H1|H1] [H2|H2]; [left; congruence | by right | right | by right].
  by rewrite H2.
Qed.

(** X2. The view follows the log: whichever of the five actions runs and
    however it ends, either the log widget is exactly as it was, or its
    view has been moved to the end of its text. No action leaves new text
    in the log without scrolling to it. *)
Theorem view_follows_the_log
    (pf : Platform) (os : Children) (s : State) :
  view_follows s (after (on_create_venv pf os) s)
  ∧ view_follows s (after (on_status pf os) s)
  ∧ view_follows s (after (on_compile pf os) s)
  ∧ view_follows s (after (on_sync pf os) s)
  ∧ view_follows s (after (run_shell_command pf os) s).
Proof.
  assert (Hlog : ∀ t u, view_follows u (logged t u)) by (intros; by right).
  split; [|split; [|split; [|split]]].
  - apply on_create_venv_along;
      try exact view_follows_trans; try exact Hlog; intros; by left.
  - apply on_status_along;
      try exact view_follows_trans; try exact Hlog; intros; by left.
  - apply on_compile_along;
      try exact view_follows_trans; try exact Hlog; intros; by left.
  - apply on_sync_along;
      try exact view_follows_trans; try exact Hlog; intros; by left.
  - apply run_shell_command_along;
      try exact view_follows_trans; try exact Hlog; intros; by left.
Qed.

(** ** What the actions leave alone *)

(** X3. No action writes to the host environment or to the command entry:
    after any of the five actions, however it ends, [os.environ] and the
    text of the entry field are what they were. In particular a shell
    command stays in the entry after it has run. *)
Theorem actions_leave_host_and_entry
    (pf : Platform) (os : Children) (s : State) :
  host_untouched s (after (on_create_venv pf os) s)
  ∧ host_untouched s (after (on_status pf os) s)
  ∧ host_untouched s (after (on_compile pf os) s)
  ∧ host_untouched s (after (on_sync pf os) s)
  ∧ host_untouched s (after (run_shell_command pf os) s).
Proof.
  assert (Htrans : ∀ s1 s2 s3, host_untouched s1 s2 → host_untouched s2 s3 →
                               host_untouched s1 s3).
  { unfold host_untouched. intros s1 s2 s3 [? ?] [? ?]. split; congruence. }
  split; [|split; [|split; [|split]]].
  - apply on_create_venv_along;
      try exact Htrans; intros; by split.
  - apply on_status_along;
      try exact Htrans; intros; by split.
  - apply on_compile_along;
      try exact Htrans; intros; by split.
  - apply on_sync_along;
      try exact Htrans; intros; by split.
  - apply run_shell_command_along;
      try exact Htrans; intros; by split.
Qed.

Lemma direct_requests_same (s s' : State) :
  spawned s' = spawned s → direct_requests s s'.
Proof. intros H. exists []. split; [by rewrite app_nil_r | constructor]. Qed.

Lemma direct_requests_trans (s1 s2 s3 : State) :
  direct_requests s1 s2 → direct_requests s2 s3 → direct_requests s1 s3.
Proof.
  intros (l1 & H1 & F1) (l2 & H2 & F2). exists (l1 ++ l2). split.
  - by rewrite H2, H1, app_assoc.
  - by apply Forall_app.
Qed.

Lemma direct_requests_one (inv : Invocation) (s : State) :
  direct inv → direct_requests s (requested inv s).
Proof. intros H. exists [inv]. split; [done|]. constructor; [exact H | constructor]. Qed.

(** X4. The four button actions never go through a shell: every request
    made by create venv, status, compile or sync, however the action ends,
    is an argument list run with [shell=False] and the inherited
    environment. Only [run_shell_command] hands text to a shell. *)
Theorem button_actions_request_directly
    (pf : Platform) (os : Children) (s : State) :
  direct_requests s (after (on_create_venv pf os) s)
  ∧ direct_requests s (after (on_status pf os) s)
  ∧ direct_requests s (after (on_compile pf os) s)
  ∧ direct_requests s (after (on_sync pf os) s).
Proof.
  assert (Hp : ∀ argv t, direct_requests t (requested (plain_request argv) t)).
  { intros. apply direct_requests_one. repeat split. by exists argv. }
  assert (Hc : ∀ argv t, direct_requests t (requested (captured_request argv) t)).
  { intros. apply direct_requests_one. repeat split. by exists argv. }
  split; [|split; [|split]].
  - apply on_create_venv_along;
      try exact direct_requests_trans; try exact Hp; try exact Hc;
      intros; by apply direct_requests_same.
  - apply on_status_along;
      try exact direct_requests_trans; try exact Hp; try exact Hc;
      intros; by apply direct_requests_same.
  - apply on_compile_along;
      try exact direct_requests_trans; try exact Hp; try exact Hc;
      intros; by apply direct_requests_same.
  - apply on_sync_along;
      try exact direct_requests_trans; try exact Hp; try exact Hc;
      intros; by apply direct_requests_same.
Qed.

Example shell_command_is_not_direct :
  ¬ direct_requests (Sample.start "pip list")
      (after (run_shell_command Sample.linux Sample.chatty)
             (Sample.start "pip list")).
Proof.
  intros (l & Hl & Hf).
  change (spawned (after _ _))
    with ([shell_request "pip list"
             (child_env Sample.linux "/usr/bin" (Sample.start "pip list"))])
    in Hl.
  cbn [Sample.start Sample.start_with spawned app] in Hl. subst l.
  apply Forall_cons in Hf as [(Hsh & _) _]. discriminate Hsh.
Qed.

(** ** OS-level dependencies *)

Lemma run_argv_completed (pf : Platform) (os : Children)
    (argv : list string) (s : State) (rc : Z) (out err : string) :
  os (spawned s) (plain_request argv) = Completed rc out err →
  run_argv pf os argv s =
  (Ok {| returncode := rc; stdout := None; stderr := None |},
   with_console (console s ++ [out; err]) (requested (plain_request argv) s)).
Proof.
  intros Ho.
  apply (subprocess_run_inherited pf os (plain_request argv) s rc out err
           eq_refl Ho).
Qed.

Lemma run_argv_not_started (pf : Platform) (os : Children)
    (argv : list string) (s : State) (e : PyExn) :
  os (spawned s) (plain_request argv) = NotStarted e →
  run_argv pf os argv s = (Raise e, requested (plain_request argv) s).
Proof.
  intros Ho.
  apply (subprocess_run_not_started pf os (plain_request argv) s e Ho).
Qed.

(** X5. On a host that reports neither Linux nor Darwin,
    [install_os_dependencies] installs nothing: it returns normally
    without a single request, and logs the detected OS followed by the
    hint for Windows, or by ["Unsupported OS."] on any other system. *)
Theorem install_os_dependencies_elsewhere
    (pf : Platform) (os : Children) (s : State) :
  system pf ≠ "Linux" →
  system pf ≠ "Darwin" →
  fst (install_os_dependencies pf os s) = Ok tt
  ∧ spawned (after (install_os_dependencies pf os) s) = spawned s
  ∧ other_surfaces (after (install_os_dependencies pf os) s)
    = other_surfaces s
  ∧ buffer (after (install_os_dependencies pf os) s)
    = buffer s +:+ detected_os_line pf +:+ LF
      +:+ (if String.eqb (system pf) "Windows"
           then "Ensure Python is installed manually on Windows."
           else "Unsupported OS.") +:+ LF.
Proof.
  intros Hl%String.eqb_neq Hd%String.eqb_neq.
  unfold after. rewrite install_os_dependencies_eq. unfold os_packages. rewrite Hl, Hd.
  destruct (String.eqb (system pf) "Windows");
    rewrite log_to_terminal_eq; cbn [fst snd];
    (repeat split; rewrite buffer_logged, buffer_logged;
     by rewrite !str_app_assoc).
Qed.

Lemma install_os_dependencies_elsewhere_witness :
  system Sample.windows ≠ "Linux"
  ∧ system Sample.windows ≠ "Darwin"
  ∧ spawned (after (install_os_dependencies Sample.windows Sample.chatty)
                   Sample.windows_start) = []
  ∧ buffer (after (install_os_dependencies Sample.windows Sample.chatty)
                  Sample.windows_start)
    = "Detected OS: Windows 10 10.0.19045" +:+ LF
      +:+ "Ensure Python is installed manually on Windows." +:+ LF.
Proof.
  assert (H1 : system Sample.windows ≠ "Linux") by discriminate.
  assert (H2 : system Sample.windows ≠ "Darwin") by discriminate.
  destruct (install_os_dependencies_elsewhere Sample.windows Sample.chatty
              Sample.windows_start H1 H2) as (_ & Hs & _ & Hb).
  split; [exact H1|]. split; [exact H2|]. split; [exact Hs | exact Hb].
Defined.

(** X6. On Linux, [install_os_dependencies] asks for [apt-get update] and
    then for [apt-get install], through [sudo] and uncaptured. The install
    is requested whatever the exit code of the update; when both children
    complete the function returns normally, their output is on the console
    and the log only holds the detected OS. When the update cannot be
    started the exception leaves the function and the install is never
    requested. *)
Theorem install_os_dependencies_on_linux
    (pf : Platform) (os : Children) (s : State) :
  system pf = "Linux" →
  (∀ rc1 o1 e1 rc2 o2 e2,
     os (spawned s) apt_update_request = Completed rc1 o1 e1 →
     os (spawned s ++ [apt_update_request]) apt_install_request
     = Completed rc2 o2 e2 →
     fst (install_os_dependencies pf os s) = Ok tt
     ∧ spawned (after (install_os_dependencies pf os) s)
       = spawned s ++ [apt_update_request; apt_install_request]
     ∧ console (after (install_os_dependencies pf os) s)
       = console s ++ [o1; e1; o2; e2]
     ∧ buffer (after (install_os_dependencies pf os) s)
       = buffer s +:+ detected_os_line pf +:+ LF)
  ∧ (∀ e,
       os (spawned s) apt_update_request = NotStarted e →
       raises (install_os_dependencies pf os) s e
       ∧ spawned (after (install_os_dependencies pf os) s)
         = spawned s ++ [apt_update_request]).
Proof.
  intros Hsys.
  assert (Heq : install_os_dependencies pf os s
                = (run_argv pf os ["sudo"; "apt-get"; "update"] >>
                   run_argv pf os ["sudo"; "apt-get"; "install"; "-y";
                                "python" +:+ PYTHON_VERSION; "python3-venv"] >>
                   ret tt) (logged (detected_os_line pf) s)).
  { rewrite install_os_dependencies_eq. unfold os_packages.
    rewrite Hsys. reflexivity. }
  unfold raises, after. rewrite Heq. clear Heq. split.
  - intros rc1 o1 e1 rc2 o2 e2 H1 H2.
    unfold bind.
    rewrite (run_argv_completed pf os _ (logged (detected_os_line pf) s)
               rc1 o1 e1 H1).
    rewrite (run_argv_completed pf os _
               (with_console _
                  (requested apt_update_request
                     (logged (detected_os_line pf) s)))
               rc2 o2 e2 H2).
    cbn [fst snd]. split; [reflexivity|].
    split; [cbn; by rewrite <- app_assoc|].
    split; [cbn; by rewrite <- app_assoc | reflexivity].
  - intros e H1.
    unfold bind.
    by rewrite (run_argv_not_started pf os _ (logged (detected_os_line pf) s)
                  e H1).
Qed.

Lemma install_os_dependencies_on_linux_witness :
  system Sample.linux = "Linux"
  ∧ Sample.failing [] apt_update_request = Completed 1 "" ("boom" +:+ LF)
  ∧ spawned (after (install_os_dependencies Sample.linux Sample.failing)
                   (Sample.start ""))
    = [apt_update_request; apt_install_request].
Proof.
  split; [reflexivity|]. split; [reflexivity|].
  exact (proj1 (proj2 (proj1 (install_os_dependencies_on_linux Sample.linux
           Sample.failing (Sample.start "") eq_refl)
           1 "" ("boom" +:+ LF) 1 "" ("boom" +:+ LF) eq_refl eq_refl))).
Defined.

(** X7. On macOS (a host that reports Darwin), [install_os_dependencies]
    makes one request, [brew install python@3.11], uncaptured and without
    [sudo]; it returns normally when that child completes, whatever its
    exit code, and raises when it cannot be started. *)
Theorem install_os_dependencies_on_darwin
    (pf : Platform) (os : Children) (s : State) :
  system pf = "Darwin" →
  spawned (after (install_os_dependencies pf os) s)
  = spawned s ++ [brew_request]
  ∧ (∀ rc out err,
       os (spawned s) brew_request = Completed rc out err →
       fst (install_os_dependencies pf os s) = Ok tt
       ∧ console (after (install_os_dependencies pf os) s)
         = console s ++ [out; err])
  ∧ (∀ e,
       os (spawned s) brew_request = NotStarted e →
       raises (install_os_dependencies pf os) s e).
Proof.
  intros Hsys.
  assert (Heq : install_os_dependencies pf os s
                = (run_argv pf os ["brew"; "install"; "python@" +:+ PYTHON_VERSION]
                   >> ret tt) (logged (detected_os_line pf) s)).
  { rewrite install_os_dependencies_eq. unfold os_packages.
    rewrite Hsys. reflexivity. }
  unfold raises, after. rewrite Heq. unfold bind.
  split; [|split].
  - destruct (os (spawned s) brew_request) as [rc out err|e] eqn:Ho.
    + by rewrite (run_argv_completed pf os _ (logged (detected_os_line pf) s)
                    rc out err Ho).
    + by rewrite (run_argv_not_started pf os _ (logged (detected_os_line pf) s)
                    e Ho).
  - intros rc out err Ho.
    by rewrite (run_argv_completed pf os _ (logged (detected_os_line pf) s)
                  rc out err Ho).
  - intros e Ho.
    by rewrite (run_argv_not_started pf os _ (logged (detected_os_line pf) s)
                  e Ho).
Qed.

Lemma install_os_dependencies_on_darwin_witness :
  system macos = "Darwin"
  ∧ spawned (after (install_os_dependencies macos Sample.failing)
                   (Sample.start ""))
    = [brew_request]
  ∧ fst (install_os_dependencies macos Sample.failing (Sample.start ""))
    = Ok tt.
Proof.
  destruct (install_os_dependencies_on_darwin macos Sample.failing
              (Sample.start "") eq_refl) as (Hs & Hc & _).
  split; [reflexivity|]. split; [exact Hs|].
  exact (proj1 (Hc 1 "" ("boom" +:+ LF) eq_refl)).
Defined.

(** ** Creating the environment *)

(** X8. [on_create_venv] reports success whatever the exit codes: once the
    OS-level step has returned, if the venv child and the pip child both run
    to completion, with any exit codes, the action returns normally, has
    requested exactly the venv creation and then the pip-tools installation,
    has logged the four lines from ["Creating virtual environment..."] to
    ["pip-tools installed."], the second naming the activate path, and has
    selected the terminal tab. *)
Theorem on_create_venv_reports_success
    (pf : Platform) (os : Children) (s : State)
    (rc1 rc2 : Z) (o1 e1 o2 e2 : string) :
  fst (install_os_dependencies pf os (logged "Checking OS dependencies..." s))
  = Ok tt →
  os (spawned (os_checked pf os s)) (venv_request pf) = Completed rc1 o1 e1 →
  os (spawned (os_checked pf os s) ++ [venv_request pf]) (pip_tools_request pf)
  = Completed rc2 o2 e2 →
  fst (on_create_venv pf os s) = Ok tt
  ∧ spawned (after (on_create_venv pf os) s)
    = spawned (os_checked pf os s) ++ [venv_request pf; pip_tools_request pf]
  ∧ buffer (after (on_create_venv pf os) s)
    = buffer (os_checked pf os s)
      +:+ "Creating virtual environment..." +:+ LF
      +:+ "Virtual environment created at " +:+ venv_program pf "activate"
      +:+ LF
      +:+ "Installing pip-tools..." +:+ LF
      +:+ "pip-tools installed." +:+ LF
  ∧ selected (after (on_create_venv pf os) s) = terminal_tab.
Proof.
  unfold os_checked, after. intros H0 H1 H2.
  destruct (install_os_dependencies pf os
              (logged "Checking OS dependencies..." s)) as [r s1] eqn:Hos.
  cbn [fst snd] in *. subst r.
  rewrite (on_create_venv_completed pf os s s1 rc1 rc2 o1 e1 o2 e2 Hos H1 H2).
  cbn [fst snd].
  split; [reflexivity|].
  split; [cbn; by rewrite <- app_assoc|].
  split; [|reflexivity].
  change (buffer (with_selected _ ?t)) with (buffer t).
  rewrite !buffer_logged.
  change (buffer (with_console _ ?t)) with (buffer t).
  change (buffer (requested _ ?t)) with (buffer t).
  rewrite !buffer_logged.
  change (buffer (with_console _ ?t)) with (buffer t).
  change (buffer (requested _ ?t)) with (buffer t).
  rewrite !buffer_logged.
  by rewrite !str_app_assoc.
Qed.

Lemma on_create_venv_reports_success_witness :
  fst (install_os_dependencies Sample.windows Sample.failing
         (logged "Checking OS dependencies..." Sample.windows_start))
  = Ok tt
  ∧ Sample.failing [] (venv_request Sample.windows)
    = Completed 1 "" ("boom" +:+ LF)
  ∧ fst (on_create_venv Sample.windows Sample.failing Sample.windows_start)
    = Ok tt
  ∧ buffer (after (on_create_venv Sample.windows Sample.failing)
                  Sample.windows_start)
    = "Checking OS dependencies..." +:+ LF
      +:+ "Detected OS: Windows 10 10.0.19045" +:+ LF
      +:+ "Ensure Python is installed manually on Windows." +:+ LF
      +:+ "Creating virtual environment..." +:+ LF
      +:+ "Virtual environment created at venv_running\Scripts\activate"
      +:+ LF
      +:+ "Installing pip-tools..." +:+ LF
      +:+ "pip-tools installed." +:+ LF.
Proof.
  split; [reflexivity|]. split; [reflexivity|].
  destruct (on_create_venv_reports_success Sample.windows Sample.failing
              Sample.windows_start 1 1 "" ("boom" +:+ LF) "" ("boom" +:+ LF)
              eq_refl eq_refl eq_refl) as (Hok & _ & Hbuf & _).
  split; [exact Hok | exact Hbuf].
Defined.

Lemma tab_outcome_bind {A B} (s0 : State) (c : M A) (k : A → M B) (s : State) :
  selected s = selected s0 →
  along same_tab c →
  (∀ a s1, selected s1 = selected s0 → tab_outcome s0 (k a s1)) →
  tab_outcome s0 (bind c k s).
Proof.
  intros Hs Hc Hk. specialize (Hc s). unfold after, same_tab, bind in *.
  destruct (c s) as [[a|e] s1]; cbn [snd] in Hc.
  - apply Hk. congruence.
  - unfold tab_outcome. cbn [fst snd]. congruence.
Qed.

Section SameTab.

Variable pf : Platform.
Variable os : Children.

Lemma same_tab_trans (s1 s2 s3 : State) :
  same_tab s1 s2 → same_tab s2 s3 → same_tab s1 s3.
Proof. unfold same_tab. congruence. Qed.

Lemma log_to_terminal_same_tab (t : string) :
  along same_tab (log_to_terminal t).
Proof. by intros s. Qed.

Lemma install_os_dependencies_same_tab :
  along same_tab (install_os_dependencies pf os).
Proof.
  apply install_os_dependencies_along;
    try exact same_tab_trans; by intros.
Qed.

Lemma create_venv_same_tab : along same_tab (create_venv pf os).
Proof.
  apply create_venv_along; try exact same_tab_trans; by intros.
Qed.

Lemma install_pip_tools_same_tab : along same_tab (install_pip_tools pf os).
Proof.
  apply install_pip_tools_along; try exact same_tab_trans; by intros.
Qed.

End SameTab.

Lemma on_create_venv_tab_outcome
    (pf : Platform) (os : Children) (s : State) :
  tab_outcome s (on_create_venv pf os s).
Proof.
  unfold on_create_venv.
  apply tab_outcome_bind;
    [done | apply log_to_terminal_same_tab | intros _ s1 H1].
  apply tab_outcome_bind;
    [done | apply install_os_dependencies_same_tab | intros _ s2 H2].
  apply tab_outcome_bind;
    [done | apply log_to_terminal_same_tab | intros _ s3 H3].
  apply tab_outcome_bind;
    [done | apply create_venv_same_tab | intros activate_script s4 H4].
  apply tab_outcome_bind;
    [done | apply log_to_terminal_same_tab | intros _ s5 H5].
  apply tab_outcome_bind;
    [done | apply log_to_terminal_same_tab | intros _ s6 H6].
  apply tab_outcome_bind;
    [done | apply install_pip_tools_same_tab | intros _ s7 H7].
  apply tab_outcome_bind;
    [done | apply log_to_terminal_same_tab | intros _ s8 H8].
  reflexivity.
Qed.

(** X9. [on_create_venv] switches to the terminal tab exactly when it runs
    to its end: if it returns, the terminal tab is selected; if one of its
    children cannot be started and the exception leaves it, the selected
    tab is the one that was selected before. *)
Theorem on_create_venv_selects_tab_on_return
    (pf : Platform) (os : Children) (s : State) :
  (returns (on_create_venv pf os) s →
   selected (after (on_create_venv pf os) s) = terminal_tab)
  ∧ (∀ e, raises (on_create_venv pf os) s e →
          selected (after (on_create_venv pf os) s) = selected s).
Proof.
  pose proof (on_create_venv_tab_outcome pf os s) as H.
  unfold tab_outcome, returns, raises, after in *.
  destruct (fst (on_create_venv pf os s)) as [u|e0].
  - split; [by intros _ | intros e He; discriminate He].
  - split; [intros [a Ha]; discriminate Ha | by intros e _].
Qed.

Lemma on_create_venv_selects_tab_on_return_witness :
  returns (on_create_venv Sample.windows Sample.chatty) Sample.windows_start
  ∧ selected (after (on_create_venv Sample.windows Sample.chatty)
                    Sample.windows_start)
    = terminal_tab
  ∧ raises (on_create_venv Sample.windows Sample.no_venv)
      Sample.windows_start (FileNotFoundError "venv_running\Scripts\pip")
  ∧ selected (after (on_create_venv Sample.windows Sample.no_venv)
                    Sample.windows_start)
    = menu_tab.
Proof.
  assert (Hr : returns (on_create_venv Sample.windows Sample.chatty)
                 Sample.windows_start) by (exists tt; reflexivity).
  assert (He : raises (on_create_venv Sample.windows Sample.no_venv)
                 Sample.windows_start
                 (FileNotFoundError "venv_running\Scripts\pip"))
    by reflexivity.
  split; [exact Hr|].
  split; [exact (proj1 (on_create_venv_selects_tab_on_return Sample.windows
                          Sample.chatty Sample.windows_start) Hr)|].
  split; [exact He|].
  exact (proj2 (on_create_venv_selects_tab_on_return Sample.windows
                  Sample.no_venv Sample.windows_start) _ He).
Defined.

Example create_venv_without_python_keeps_tab :
  raises (on_create_venv Sample.windows
            (λ _ _, NotStarted (FileNotFoundError "python.exe")))
         Sample.windows_start (FileNotFoundError "python.exe")
  ∧ selected (after (on_create_venv Sample.windows
                       (λ _ _, NotStarted (FileNotFoundError "python.exe")))
                    Sample.windows_start)
    = menu_tab.
Proof. split; reflexivity. Qed.

(** ** More on shell commands *)

(** X11. When the host environment has no [PATH], a command that is not
    blank is announced in the log and then [run_shell_command] raises
    [KeyError] for ["PATH"]: no child is requested, nothing more is logged
    and [os.environ] is unchanged. *)
Theorem run_shell_command_without_path
    (pf : Platform) (os : Children) (s : State) :
  Str.blank (shell_entry s) = false →
  os_environ s !! "PATH" = None →
  raises (run_shell_command pf os) s (KeyError "PATH")
  ∧ spawned (after (run_shell_command pf os) s) = spawned s
  ∧ buffer (after (run_shell_command pf os) s)
    = buffer s +:+ "Executing in venv: " +:+ shell_entry s +:+ LF
  ∧ os_environ (after (run_shell_command pf os) s) = os_environ s.
Proof.
  intros Hb Hp. unfold raises, after.
  rewrite (run_shell_command_no_path pf os s Hb Hp). cbn [fst snd].
  split; [reflexivity|]. split; [reflexivity|]. split; [|reflexivity].
  change (buffer (with_locals _ ?t)) with (buffer t).
  by rewrite buffer_logged, !str_app_assoc.
Qed.

Lemma run_shell_command_without_path_witness :
  Str.blank (shell_entry (pathless_start "pip list")) = false
  ∧ os_environ (pathless_start "pip list") !! "PATH" = None
  ∧ raises (run_shell_command Sample.linux Sample.chatty)
      (pathless_start "pip list") (KeyError "PATH")
  ∧ spawned (after (run_shell_command Sample.linux Sample.chatty)
                   (pathless_start "pip list"))
    = [].
Proof.
  split; [reflexivity|]. split; [reflexivity|].
  destruct (run_shell_command_without_path Sample.linux Sample.chatty
              (pathless_start "pip list") eq_refl eq_refl)
    as (Hr & Hs & _).
  split; [exact Hr | exact Hs].
Defined.

(** X12. The search path does not pile up: running a command, typing
    another one and running it makes two requests whose environments are
    the same, each with the binary directory in front of the host's
    original [PATH] exactly once. *)
Theorem path_is_not_accumulated
    (pf : Platform) (os : Children) (s : State) (p cmd2 : string) :
  Str.blank (shell_entry s) = false →
  Str.blank cmd2 = false →
  os_environ s !! "PATH" = Some p →
  spawned (after (run_shell_command pf os)
                 (type_command cmd2 (after (run_shell_command pf os) s)))
  = spawned s ++ [shell_request (shell_entry s) (child_env pf p s);
                  shell_request cmd2 (child_env pf p s)].
Proof.
  intros Hb Hb2 Hp.
  destruct (run_shell_command_host_untouched pf os s) as [Henv _].
  pose proof (shell_spawned_request pf os s p Hb Hp) as H1.
  set (s1 := after (run_shell_command pf os) s) in *.
  assert (Hp2 : os_environ (type_command cmd2 s1) !! "PATH" = Some p).
  { cbn [type_command os_environ]. by rewrite Henv. }
  rewrite (shell_spawned_request pf os (type_command cmd2 s1) p Hb2 Hp2).
  cbn [type_command spawned shell_entry]. rewrite H1.
  unfold child_env. cbn [type_command os_environ]. rewrite Henv.
  by rewrite <- app_assoc.
Qed.

Lemma path_is_not_accumulated_witness :
  Str.blank (shell_entry (Sample.start "pip list")) = false
  ∧ Str.blank "pip check" = false
  ∧ os_environ (Sample.start "pip list") !! "PATH" = Some "/usr/bin"
  ∧ env <$> spawned (after (run_shell_command Sample.linux Sample.chatty)
              (type_command "pip check"
                 (after (run_shell_command Sample.linux Sample.chatty)
                        (Sample.start "pip list"))))
    = [Some (child_env Sample.linux "/usr/bin" (Sample.start "pip list"));
       Some (child_env Sample.linux "/usr/bin" (Sample.start "pip list"))].
Proof.
  split; [reflexivity|]. split; [reflexivity|]. split; [reflexivity|].
  rewrite (path_is_not_accumulated Sample.linux Sample.chatty
             (Sample.start "pip list") "/usr/bin" "pip check"
             eq_refl eq_refl eq_refl).
  reflexivity.
Defined.

(** ** Helpers that stay out of the log *)

(** X14. [create_venv], [install_pip_tools] and [get_installed_packages]
    never write to the log and never open a message box, however they
    end: the log widget and the message boxes are afterwards what they
    were. What these helpers' children print reaches the user, if at all,
    through the console or through the caller. *)
Theorem helpers_stay_out_of_the_log
    (pf : Platform) (os : Children) (s : State) :
  silent s (after (create_venv pf os) s)
  ∧ silent s (after (install_pip_tools pf os) s)
  ∧ silent s (after (get_installed_packages pf os) s).
Proof.
  assert (Htrans : ∀ s1 s2 s3, silent s1 s2 → silent s2 s3 → silent s1 s3).
  { unfold silent. intros s1 s2 s3 [? ?] [? ?]. split; congruence. }
  split; [|split].
  - apply create_venv_along; try exact Htrans; intros; by split.
  - apply install_pip_tools_along; try exact Htrans; intros; by split.
  - apply get_installed_packages_along; try exact Htrans; intros; by split.
Qed.

(** ** Creating the environment, when a child cannot be started *)

(** X15. [on_create_venv] stops at the first child that cannot be started.
    Once the OS-level step has returned: if the venv child cannot be
    started, the exception leaves the action, the log ends with
    ["Creating virtual environment..."] and pip-tools is never requested;
    if the venv child completes but the pip child cannot be started, the
    exception leaves the action and the log ends with
    ["Installing pip-tools..."], without ["pip-tools installed."]. *)
Theorem on_create_venv_stops_at_missing_child
    (pf : Platform) (os : Children) (s : State) (e : PyExn) :
  fst (install_os_dependencies pf os (logged "Checking OS dependencies..." s))
  = Ok tt →
  (os (spawned (os_checked pf os s)) (venv_request pf) = NotStarted e →
   raises (on_create_venv pf os) s e
   ∧ spawned (after (on_create_venv pf os) s)
     = spawned (os_checked pf os s) ++ [venv_request pf]
   ∧ buffer (after (on_create_venv pf os) s)
     = buffer (os_checked pf os s)
       +:+ "Creating virtual environment..." +:+ LF)
  ∧ (∀ rc out err,
       os (spawned (os_checked pf os s)) (venv_request pf)
       = Completed rc out err →
       os (spawned (os_checked pf os s) ++ [venv_request pf])
          (pip_tools_request pf)
       = NotStarted e →
       raises (on_create_venv pf os) s e
       ∧ buffer (after (on_create_venv pf os) s)
         = buffer (os_checked pf os s)
           +:+ "Creating virtual environment..." +:+ LF
           +:+ "Virtual environment created at "
           +:+ venv_program pf "activate" +:+ LF
           +:+ "Installing pip-tools..." +:+ LF).
Proof.
  unfold os_checked, raises, after. intros H0.
  destruct (install_os_dependencies pf os
              (logged "Checking OS dependencies..." s)) as [r s1] eqn:Hos.
  cbn [fst snd] in *. subst r. split.
  - intros H1.
    assert (Hrun : on_create_venv pf os s
                   = (Raise e,
                      requested (venv_request pf)
                        (logged "Creating virtual environment..." s1))).
    { rewrite on_create_venv_eq. unfold bind at 1. rewrite Hos.
      unfold bind. rewrite !log_to_terminal_eq.
      by rewrite (create_venv_not_started pf os
                    (logged "Creating virtual environment..." s1) e H1). }
    rewrite Hrun. cbn [fst snd].
    split; [reflexivity|]. split; [reflexivity|].
    change (buffer (requested _ ?t)) with (buffer t).
    by rewrite buffer_logged.
  - intros rc out err H1 H2.
    assert (Hrun : on_create_venv pf os s
                   = (Raise e,
                      requested (pip_tools_request pf)
                        (logged "Installing pip-tools..."
                           (logged ("Virtual environment created at "
                                    +:+ venv_program pf "activate")
                              (with_console (console s1 ++ [out; err])
                                 (requested (venv_request pf)
                                    (logged "Creating virtual environment..."
                                       s1))))))).
    { rewrite on_create_venv_eq. unfold bind at 1. rewrite Hos.
      unfold bind. rewrite !log_to_terminal_eq.
      rewrite (create_venv_completed pf os
                 (logged "Creating virtual environment..." s1) rc out err H1).
      rewrite !log_to_terminal_eq.
      by rewrite (install_pip_tools_not_started pf os
                    (logged "Installing pip-tools..."
                       (logged ("Virtual environment created at "
                                +:+ venv_program pf "activate")
                          (with_console _
                             (requested (venv_request pf)
                                (logged "Creating virtual environment..."
                                   s1)))))
                    e H2). }
    rewrite Hrun. cbn [fst snd]. split; [reflexivity|].
    change (buffer (requested _ ?t)) with (buffer t).
    rewrite !buffer_logged.
    change (buffer (with_console _ ?t)) with (buffer t).
    change (buffer (requested _ ?t)) with (buffer t).
    rewrite buffer_logged.
    by rewrite !str_app_assoc.
Qed.

Lemma on_create_venv_stops_at_missing_child_witness :
  fst (install_os_dependencies Sample.windows Sample.no_venv
         (logged "Checking OS dependencies..." Sample.windows_start))
  = Ok tt
  ∧ Sample.no_venv [] (venv_request Sample.windows) = Completed 0 "" ""
  ∧ Sample.no_venv [venv_request Sample.windows]
      (pip_tools_request Sample.windows)
    = NotStarted (FileNotFoundError "venv_running\Scripts\pip")
  ∧ buffer (after (on_create_venv Sample.windows Sample.no_venv)
                  Sample.windows_start)
    = "Checking OS dependencies..." +:+ LF
      +:+ "Detected OS: Windows 10 10.0.19045" +:+ LF
      +:+ "Ensure Python is installed manually on Windows." +:+ LF
      +:+ "Creating virtual environment..." +:+ LF
      +:+ "Virtual environment created at venv_running\Scripts\activate"
      +:+ LF
      +:+ "Installing pip-tools..." +:+ LF.
Proof.
  split; [reflexivity|]. split; [reflexivity|]. split; [reflexivity|].
  exact (proj2 (proj2 (on_create_venv_stops_at_missing_child Sample.windows
           Sample.no_venv Sample.windows_start
           (FileNotFoundError "venv_running\Scripts\pip") eq_refl)
           0 "" "" eq_refl eq_refl)).
Defined.

(** ** Status *)

Lemma on_status_returned (pf : Platform) (os : Children) (s : State)
    (rc : Z) (outb errb out err : string) :
  os (spawned s) (list_request pf) = Completed rc outb errb →
  translate_newlines pf outb = Some out →
  translate_newlines pf errb = Some err →
  on_status pf os s =
  (Ok tt, with_dialogs (dialogs s ++ [("Installed Packages", out)])
            (requested (list_request pf) s)).
Proof.
  intros Ho Hout Herr. unfold on_status. unfold bind at 1.
  by rewrite (get_installed_packages_returned pf os s rc outb errb out err
                Ho Hout Herr).
Qed.

Lemma on_status_not_started (pf : Platform) (os : Children) (s : State)
    (e : PyExn) :
  os (spawned s) (list_request pf) = NotStarted e →
  on_status pf os s = (Raise e, requested (list_request pf) s).
Proof.
  intros Ho. unfold on_status. unfold bind at 1.
  by rewrite (get_installed_packages_not_started pf os s e Ho).
Qed.

Example status_with_undecodable_listing :
  raises (on_status Sample.linux Sample.garbled) (Sample.start "")
    (UnicodeDecodeError Sample.byte_ff)
  ∧ dialogs (after (on_status Sample.linux Sample.garbled) (Sample.start ""))
    = []
  ∧ fst (on_status Sample.windows Sample.garbled Sample.windows_start) = Ok tt
  ∧ dialogs (after (on_status Sample.windows Sample.garbled)
                   Sample.windows_start)
    = [("Installed Packages", "")]
  ∧ console (after (on_status Sample.windows Sample.garbled)
                   Sample.windows_start)
    = ["Exception in thread Thread-1 (_readerthread):" +:+ LF
       +:+ "Traceback (most recent call last):" +:+ LF].
Proof. repeat split; reflexivity. Qed.

(** X10. The status box shows the standard output of [pip list] and
    nothing else: when [subprocess.run] returns (the child has completed
    and both streams have been decoded), [on_status] returns normally and
    opens one box holding the captured standard output, and its whole
    result is the same whatever the exit code and whatever decodable text
    was written on standard error, which is dropped. When the child cannot
    be started, no box is opened and the exception leaves [on_status]. *)
Theorem on_status_shows_stdout_only
    (pf : Platform) (os os' : Children) (s : State) :
  (∀ rc rc' outb errb errb' out err err',
     translate_newlines pf outb = Some out →
     translate_newlines pf errb = Some err →
     translate_newlines pf errb' = Some err' →
     os (spawned s) (list_request pf) = Completed rc outb errb →
     os' (spawned s) (list_request pf) = Completed rc' outb errb' →
     fst (on_status pf os s) = Ok tt
     ∧ dialogs (after (on_status pf os) s)
       = dialogs s ++ [("Installed Packages", out)]
     ∧ on_status pf os s = on_status pf os' s)
  ∧ (∀ e,
       os (spawned s) (list_request pf) = NotStarted e →
       raises (on_status pf os) s e
       ∧ dialogs (after (on_status pf os) s) = dialogs s).
Proof.
  split.
  - intros rc rc' outb errb errb' out err err' Hout Herr Herr' Ho Ho'.
    unfold after.
    rewrite (on_status_returned pf os s rc outb errb out err Ho Hout Herr).
    by rewrite (on_status_returned pf os' s rc' outb errb' out err'
                  Ho' Hout Herr').
  - intros e Ho. unfold raises, after.
    by rewrite (on_status_not_started pf os s e Ho).
Qed.

Lemma on_status_shows_stdout_only_witness :
  translate_newlines Sample.linux "" = Some ""
  ∧ translate_newlines Sample.linux ("boom" +:+ LF) = Some ("boom" +:+ LF)
  ∧ Sample.failing [] (list_request Sample.linux)
    = Completed 1 "" ("boom" +:+ LF)
  ∧ Sample.clean [] (list_request Sample.linux) = Completed 0 "ok" ""
  ∧ dialogs (after (on_status Sample.linux Sample.failing) (Sample.start ""))
    = [("Installed Packages", "")]
  ∧ Sample.no_venv [] (list_request Sample.linux)
    = NotStarted (FileNotFoundError "venv_running/bin/pip")
  ∧ dialogs (after (on_status Sample.linux Sample.no_venv) (Sample.start ""))
    = [].
Proof.
  split; [reflexivity|]. split; [reflexivity|].
  split; [reflexivity|]. split; [reflexivity|].
  split.
  { exact (proj1 (proj2 (proj1 (on_status_shows_stdout_only Sample.linux
             Sample.failing Sample.failing (Sample.start ""))
             1 1 "" ("boom" +:+ LF) ("boom" +:+ LF) "" ("boom" +:+ LF)
             ("boom" +:+ LF) eq_refl eq_refl eq_refl eq_refl eq_refl))). }
  split; [reflexivity|].
  exact (proj2 (proj2 (on_status_shows_stdout_only Sample.linux
           Sample.no_venv Sample.no_venv (Sample.start ""))
           (FileNotFoundError "venv_running/bin/pip") eq_refl)).
Defined.

(** ** Compile and sync, from the buttons *)

(** X13. The compile and sync buttons announce the tool before running it:
    when [subprocess.run] returns (the child has completed and both streams
    have been decoded), the action returns normally and the log gains the
    announcement, then the captured standard output, then the captured
    standard error if it is not empty; when the child cannot be started,
    the exception leaves the action and the announcement is the only line
    the log gains. *)
Theorem compile_and_sync_announce_then_log
    (pf : Platform) (os : Children) (s : State) :
  (∀ rc outb errb out err,
     translate_newlines pf outb = Some out →
     translate_newlines pf errb = Some err →
     (os (spawned s) (compile_request pf) = Completed rc outb errb →
      fst (on_compile pf os s) = Ok tt
      ∧ buffer (after (on_compile pf os) s)
        = buffer s +:+ "Running pip-compile..." +:+ LF
          +:+ out +:+ LF +:+ line_if_any err)
     ∧ (os (spawned s) (sync_request pf) = Completed rc outb errb →
        fst (on_sync pf os s) = Ok tt
        ∧ buffer (after (on_sync pf os) s)
          = buffer s +:+ "Running pip-sync..." +:+ LF
            +:+ out +:+ LF +:+ line_if_any err))
  ∧ (∀ e,
       (os (spawned s) (compile_request pf) = NotStarted e →
        raises (on_compile pf os) s e
        ∧ buffer (after (on_compile pf os) s)
          = buffer s +:+ "Running pip-compile..." +:+ LF)
       ∧ (os (spawned s) (sync_request pf) = NotStarted e →
          raises (on_sync pf os) s e
          ∧ buffer (after (on_sync pf os) s)
            = buffer s +:+ "Running pip-sync..." +:+ LF)).
Proof.
  unfold raises, after. rewrite on_compile_eq, on_sync_eq.
  split.
  - intros rc outb errb out err Hout Herr. split.
    + intros Ho.
      rewrite (compile_requirements_returned pf os
                 (logged "Running pip-compile..." s) rc outb errb out err
                 Ho Hout Herr).
      split; [reflexivity|]. cbn [snd].
      rewrite buffer_logged_if_any, !buffer_logged.
      change (buffer (requested _ ?t)) with (buffer t).
      by rewrite buffer_logged, ?str_app_assoc.
    + intros Ho.
      rewrite (sync_requirements_returned pf os
                 (logged "Running pip-sync..." s) rc outb errb out err
                 Ho Hout Herr).
      split; [reflexivity|]. cbn [snd].
      rewrite buffer_logged_if_any, !buffer_logged.
      change (buffer (requested _ ?t)) with (buffer t).
      by rewrite buffer_logged, ?str_app_assoc.
  - intros e. split.
    + intros Ho.
      by rewrite (compile_requirements_not_started pf os
                    (logged "Running pip-compile..." s) e Ho).
    + intros Ho.
      by rewrite (sync_requirements_not_started pf os
                    (logged "Running pip-sync..." s) e Ho).
Qed.

Lemma compile_and_sync_announce_then_log_witness :
  Sample.no_venv [] (sync_request Sample.linux)
  = NotStarted (FileNotFoundError "venv_running/bin/pip-sync")
  ∧ buffer (after (on_sync Sample.linux Sample.no_venv) (Sample.start ""))
    = "Running pip-sync..." +:+ LF
  ∧ translate_newlines Sample.linux "ok" = Some "ok"
  ∧ translate_newlines Sample.linux "" = Some ""
  ∧ Sample.clean [] (compile_request Sample.linux) = Completed 0 "ok" ""
  ∧ buffer (after (on_compile Sample.linux Sample.clean) (Sample.start ""))
    = "Running pip-compile..." +:+ LF +:+ "ok" +:+ LF.
Proof.
  destruct (compile_and_sync_announce_then_log Sample.linux Sample.no_venv
              (Sample.start "")) as (_ & Hn).
  destruct (Hn (FileNotFoundError "venv_running/bin/pip-sync")) as (_ & Hs).
  destruct (compile_and_sync_announce_then_log Sample.linux Sample.clean
              (Sample.start "")) as (Hr & _).
  destruct (Hr 0 "ok" "" "ok" "" eq_refl eq_refl) as (Hc & _).
  split; [reflexivity|].
  split; [exact (proj2 (Hs eq_refl))|].
  split; [reflexivity|]. split; [reflexivity|]. split; [reflexivity|].
  exact (proj2 (Hc eq_refl)).
Defined.

